(** * OSIO Focus line bot: orders, warranty tickets and their flat-file store

    A shallow embedding of [bot.py].  Python text ([str]) is a Rocq [string]
    holding the UTF-8 bytes of the text; a Python [dict] is an association
    list in insertion order; the aiogram session storage is a finite map from
    chat ids to sessions; handlers run in a small state-and-exception monad
    over the bot's world (disk, sessions, clock, messages sent). *)

From Stdlib Require Import String Ascii List ZArith Lia Bool.
From Stdlib Require Import DecimalString DecimalNat Sorted.
From stdpp Require Import base option gmap strings list.

Open Scope string_scope.

(** [simpl] may compute the concatenation of texts again. *)
#[global] Arguments String.append !s1 s2 : simpl nomatch.

(** ** Python text *)

Module PyStr.

(** [s.startswith(p)] *)
Fixpoint startswith (p s : string) : bool :=
  match p with
  | EmptyString => true
  | String a p' =>
      match s with
      | EmptyString => false
      | String b s' => Ascii.eqb a b && startswith p' s'
      end
  end.

(** [s.startswith((p1, p2, ...))]: a tuple of prefixes *)
Definition startswith_any (ps : list string) (s : string) : bool :=
  existsb (fun p => startswith p s) ps.

(** the text left after a known prefix of length [n] *)
Fixpoint drop (n : nat) (s : string) : string :=
  match n with
  | O => s
  | S n' => match s with EmptyString => EmptyString | String _ s' => drop n' s' end
  end.

(** [s.partition(sep)] for a non-empty separator: the text before the first
    occurrence of [sep], the separator, and the text after it; when [sep]
    does not occur, [(s, "", "")]. *)
Fixpoint partition (sep s : string) : string * string * string :=
  if startswith sep s then (EmptyString, sep, drop (String.length sep) s)
  else
    match s with
    | EmptyString => (EmptyString, EmptyString, EmptyString)
    | String c s' =>
        let '(before, found, after) := partition sep s' in
        (String c before, found, after)
    end.

Definition byte (n : nat) : ascii := ascii_of_nat n.

Definition bytes (l : list nat) : string :=
  string_of_list_ascii (map byte l).

(** The characters for which [str.isspace()] holds, each as its UTF-8
    encoding: U+0009..U+000D, U+001C..U+0020, U+0085, U+00A0, U+1680,
    U+2000..U+200A, U+2028, U+2029, U+202F, U+205F, U+3000. *)
Definition whitespace : list string :=
  map (fun n => bytes [n]) [9; 10; 11; 12; 13; 28; 29; 30; 31; 32]
  ++ [bytes [194; 133]; bytes [194; 160]; bytes [225; 154; 128]]
  ++ map (fun n => bytes [226; 128; n]) [128; 129; 130; 131; 132; 133; 134; 135; 136; 137; 138]
  ++ [bytes [226; 128; 168]; bytes [226; 128; 169]; bytes [226; 128; 175];
      bytes [226; 129; 159]; bytes [227; 128; 128]].

(** the first entry of [ws] that [s] starts with *)
Definition leading (ws : list string) (s : string) : option string :=
  find (fun w => startswith w s) ws.

(** drop leading members of [ws]; [fuel] bounds the number of rounds *)
Fixpoint lstrip_with (ws : list string) (fuel : nat) (s : string) : string :=
  match fuel with
  | O => s
  | S fuel' =>
      match leading ws s with
      | Some w => lstrip_with ws fuel' (drop (String.length w) s)
      | None => s
      end
  end.

Fixpoint rev_acc (s acc : string) : string :=
  match s with
  | EmptyString => acc
  | String c s' => rev_acc s' (String c acc)
  end.

Definition rev (s : string) : string := rev_acc s EmptyString.

Definition lstrip (s : string) : string :=
  lstrip_with whitespace (String.length s) s.

Definition rstrip (s : string) : string :=
  rev (lstrip_with (map rev whitespace) (String.length s) (rev s)).

(** [s.strip()] *)
Definition strip (s : string) : string := rstrip (lstrip s).

(** [re.sub(r"\s+", "", s)]: every whitespace character removed *)
Fixpoint remove_whitespace_fuel (fuel : nat) (s : string) : string :=
  match fuel with
  | O => s
  | S fuel' =>
      match leading whitespace s with
      | Some w => remove_whitespace_fuel fuel' (drop (String.length w) s)
      | None =>
          match s with
          | EmptyString => EmptyString
          | String c s' => String c (remove_whitespace_fuel fuel' s')
          end
      end
  end.

Definition remove_whitespace (s : string) : string :=
  remove_whitespace_fuel (String.length s) s.

(** decimal digits of a natural number, as [str(n)] prints them *)
Definition decimal (n : nat) : string :=
  NilZero.string_of_uint (Nat.to_uint n).

(** [n] copies of the character [c] *)
Fixpoint replicate_char (n : nat) (c : ascii) : string :=
  match n with
  | O => EmptyString
  | S n' => String c (replicate_char n' c)
  end.

(** the format specification [0<width>d] applied to a natural number:
    the decimal digits, padded on the left with zeros up to [width] *)
Definition format_0d (width n : nat) : string :=
  let digits := decimal n in
  replicate_char (width - String.length digits) "0" +:+ digits.

(** what [int(s)] reads back from a string of decimal digits *)
Definition parse_decimal (s : string) : option nat :=
  option_map Nat.of_uint (NilZero.uint_of_string s).

Definition is_digit (c : ascii) : bool :=
  let n := nat_of_ascii c in (48 <=? n)%nat && (n <=? 57)%nat.

Fixpoint all_digits (s : string) : bool :=
  match s with
  | EmptyString => true
  | String c s' => is_digit c && all_digits s'
  end.

(** [s.endswith(p)] *)
Definition endswith (p s : string) : bool :=
  startswith (rev p) (rev s).

End PyStr.


(** ** Python dictionaries

    A [dict] keeps its keys in insertion order; [len], iteration and the
    stable [sorted] all see that order, so a dictionary is a list of
    key/value pairs whose keys are pairwise different. *)

Module PyDict.

Definition pydict (V : Type) : Type := list (string * V).

Definition keys {V} (d : pydict V) : list string := map fst d.

(** [d.get(k)]: [None] when the key is absent *)
Fixpoint get {V} (k : string) (d : pydict V) : option V :=
  match d with
  | [] => None
  | (k', v) :: d' => if String.eqb k k' then Some v else get k d'
  end.

(** [k in d] *)
Definition mem {V} (k : string) (d : pydict V) : bool :=
  match get k d with Some _ => true | None => false end.

(** [d[k] = v]: the value of an existing key is replaced where it stands,
    a new key goes to the end *)
Fixpoint set {V} (k : string) (v : V) (d : pydict V) : pydict V :=
  match d with
  | [] => [(k, v)]
  | (k', v') :: d' =>
      if String.eqb k k' then (k', v) :: d' else (k', v') :: set k v d'
  end.

(** [{**d1, **d2}], also [d1.update(d2)] *)
Definition update {V} (d1 d2 : pydict V) : pydict V :=
  fold_left (fun acc kv => set (fst kv) (snd kv) acc) d2 d1.

(** a dictionary as Python can hold it: no key twice *)
Definition wf {V} (d : pydict V) : Prop := List.NoDup (keys d).

End PyDict.

Abbreviation pydict := PyDict.pydict.

(** ** [sorted] *)

Module PySort.

Section Sorting.
Context {A : Type} (le : A -> A -> bool).

(** insertion in front of the first element that is not smaller *)
Fixpoint insert (x : A) (l : list A) : list A :=
  match l with
  | [] => [x]
  | y :: l' => if le x y then x :: l else y :: insert x l'
  end.

(** a stable ascending sort: equal elements keep their order *)
Definition stable_sort (l : list A) : list A := fold_right insert [] l.

(** [sorted(l, key=..., reverse=r)]: with [reverse=True] the list is
    reversed, sorted stably and reversed again, so equal elements still
    keep their original order *)
Definition sorted (reverse : bool) (l : list A) : list A :=
  if reverse then List.rev (stable_sort (List.rev l)) else stable_sort l.
End Sorting.

End PySort.

(** ** Regular expressions, as far as [re.match] is used *)

Module Re.

Inductive regex : Type :=
| Void                          (* matches nothing *)
| Eps                           (* matches the empty text *)
| Lit (c : ascii)               (* the character c, also an escaped one *)
| NotLit (c : ascii)            (* the class [^c] *)
| Cat (r1 r2 : regex)
| Alt (r1 r2 : regex)
| Star (r : regex).

(** [r+] *)
Definition Plus (r : regex) : regex := Cat r (Star r).

(** the texts a pattern matches in full *)
Inductive lang : regex -> string -> Prop :=
| lang_eps : lang Eps EmptyString
| lang_lit c : lang (Lit c) (String c EmptyString)
| lang_notlit c x : x <> c -> lang (NotLit c) (String x EmptyString)
| lang_cat r1 r2 s1 s2 : lang r1 s1 -> lang r2 s2 -> lang (Cat r1 r2) (s1 +:+ s2)
| lang_alt_l r1 r2 s : lang r1 s -> lang (Alt r1 r2) s
| lang_alt_r r1 r2 s : lang r2 s -> lang (Alt r1 r2) s
| lang_star_nil r : lang (Star r) EmptyString
| lang_star_cons r s1 s2 : lang r s1 -> lang (Star r) s2 -> lang (Star r) (s1 +:+ s2).

Fixpoint nullable (r : regex) : bool :=
  match r with
  | Void => false
  | Eps => true
  | Lit _ => false
  | NotLit _ => false
  | Cat r1 r2 => nullable r1 && nullable r2
  | Alt r1 r2 => nullable r1 || nullable r2
  | Star _ => true
  end.

(** what is left of the pattern once the character [x] has been read *)
Fixpoint deriv (x : ascii) (r : regex) : regex :=
  match r with
  | Void => Void
  | Eps => Void
  | Lit c => if Ascii.eqb x c then Eps else Void
  | NotLit c => if Ascii.eqb x c then Void else Eps
  | Cat r1 r2 =>
      if nullable r1 then Alt (Cat (deriv x r1) r2) (deriv x r2)
      else Cat (deriv x r1) r2
  | Alt r1 r2 => Alt (deriv x r1) (deriv x r2)
  | Star r1 => Cat (deriv x r1) (Star r1)
  end.

(** [re.match(r, s)] as a truth value: some text at the start of [s]
    matches the pattern (nothing anchors the end) *)
Fixpoint re_match (r : regex) (s : string) : bool :=
  nullable r ||
  match s with
  | EmptyString => false
  | String x s' => re_match (deriv x r) s'
  end.

End Re.

(** ** [datetime] *)

Module DateTime.

Record datetime : Type := {
  year : nat; month : nat; day : nat;
  hour : nat; minute : nat; second : nat; microsecond : nat
}.

(** [d.strftime('%Y%m%d')] *)
Definition strftime_Ymd (d : datetime) : string :=
  PyStr.format_0d 4 (year d) +:+ PyStr.format_0d 2 (month d) +:+ PyStr.format_0d 2 (day d).

(** [d.isoformat()]: the fraction is left out when it is zero *)
Definition isoformat (d : datetime) : string :=
  PyStr.format_0d 4 (year d) +:+ "-" +:+ PyStr.format_0d 2 (month d) +:+ "-" +:+
  PyStr.format_0d 2 (day d) +:+ "T" +:+ PyStr.format_0d 2 (hour d) +:+ ":" +:+
  PyStr.format_0d 2 (minute d) +:+ ":" +:+ PyStr.format_0d 2 (second d) +:+
  (if Nat.eqb (microsecond d) 0 then EmptyString
   else "." +:+ PyStr.format_0d 6 (microsecond d)).

End DateTime.


(** ** The bot *)

Module Bot.

Import DateTime.

(** *** Configuration and product card *)

Definition BASE_CURRENCY : string := "ZAR".
Definition PRODUCT_name : string := "OSIO Focus line 14".
Definition PRODUCT_price : Z := 14999.

(** *** Records kept on disk *)

(** A value inside an order record: text or a whole number. *)
Inductive jval : Type :=
| JStr (s : string)
| JInt (n : Z).

(** An order is the dictionary built in [buy_delivery]:
    [created_at], [product], [price] and then everything in the session. *)
Definition order : Type := pydict jval.

(** One entry of a ticket's history: [{"ts": ..., "event": ...}]. *)
Record hist_entry : Type := { ts : string; event : string }.

(** A ticket is the dictionary built in [w_remote].  [serial] and [issue]
    come from [data.get(...)], which yields [None] for a missing key. *)
Record ticket : Type := {
  created_at : string;
  serial : option string;
  issue : option string;
  remote_ok : bool;
  status : string;
  history : list hist_entry
}.

(** What [_load] can find at a path: nothing, text that [json.load]
    rejects with [JSONDecodeError], or the JSON text of a collection
    (kept here as the collection it denotes). *)
Inductive file (R : Type) : Type :=
| Missing
| Corrupt (raw : string)
| Json (content : pydict R).
Arguments Missing {R}.
Arguments Corrupt {R} raw.
Arguments Json {R} content.

Record disk : Type := {
  orders_json : file order;
  tickets_json : file ticket
}.

(** A path names one file of the data directory and fixes the type of the
    records stored in it. *)
Record path (R : Type) : Type := {
  path_name : string;
  read_file : disk -> file R;
  write_file : file R -> disk -> disk
}.
Arguments path_name {R}.
Arguments read_file {R}.
Arguments write_file {R}.

Definition ORDERS_DB : path order := {|
  path_name := "orders.json";
  read_file := orders_json;
  write_file := fun f d => {| orders_json := f; tickets_json := tickets_json d |}
|}.

Definition TICKETS_DB : path ticket := {|
  path_name := "tickets.json";
  read_file := tickets_json;
  write_file := fun f d => {| orders_json := orders_json d; tickets_json := f |}
|}.

Definition _load {R} (p : path R) (d : disk) : pydict R :=
  match read_file p d with
  | Missing => []
  | Corrupt _ => []
  | Json content => content
  end.

Definition _save {R} (p : path R) (data : pydict R) (d : disk) : disk :=
  write_file p (Json data) d.

(** *** Conversation states and sessions *)

Inductive BuyForm : Type :=
| taking_name | taking_email | taking_phone | taking_city
| taking_address | taking_delivery | confirm.

Inductive WarrantyForm : Type :=
| taking_serial | taking_issue | ask_remote | schedule_remote | tl_wait
| asc_redirect | asc_control | repair | handover | feedback.

Inductive State : Type :=
| Buy (s : BuyForm)
| Warranty (s : WarrantyForm).

#[global] Instance BuyForm_eq_dec : EqDecision BuyForm.
Proof. solve_decision. Defined.
#[global] Instance WarrantyForm_eq_dec : EqDecision WarrantyForm.
Proof. solve_decision. Defined.
#[global] Instance State_eq_dec : EqDecision State.
Proof. solve_decision. Defined.

(** What the FSM storage keeps for one chat. *)
Record session : Type := { state : option State; data : pydict string }.

Definition empty_session : session := {| state := None; data := [] |}.

(** *** What the bot sends *)

Record InlineKeyboardButton : Type := { text : string; callback_data : string }.

Definition InlineKeyboardMarkup : Type := list (list InlineKeyboardButton).

(** Screens whose text is fixed and plays no part in any state. *)
Inductive screen : Type :=
| Welcome | MainMenu | Presentation | Contacts | WarrantyIntro.

Inductive admin_note : Type :=
| NewOrder (order_id : string) (record : order)
| NewTicket (ticket_id : string) (record : ticket).

Inductive output : Type :=
| Answer (chat : Z) (body : string) (reply_markup : option InlineKeyboardMarkup)
| Render (chat : Z) (s : screen) (reply_markup : InlineKeyboardMarkup)
| CallbackAnswer (chat : Z) (notice : option string) (show_alert : bool)
| SendAdmin (note : admin_note)
| OrdersList (chat : Z) (db : pydict order)
| TicketsList (chat : Z) (db : pydict ticket).

(** *** The world a handler runs in *)

(** What the process is given from outside: the operator's chat id, the
    UTC clock (the value of the n-th reading), aiogram's command filter and
    Python's [str.upper]. *)
Record env : Type := {
  ADMIN_CHAT_ID : string;
  utc_clock : nat -> datetime;
  is_command : string -> string -> bool;
  str_upper : string -> string
}.

Record world : Type := {
  config : env;
  files : disk;
  storage : gmap Z session;
  ticks : nat;
  outbox : list output
}.

Inductive exn : Type :=
| KeyError (key : string).

(** A handler changes the world and either finishes or raises; what it did
    before raising stays done. *)
Definition M (A : Type) : Type := world -> (exn + A) * world.

#[global] Instance M_ret : MRet M := fun A a w => (inr a, w).

#[global] Instance M_bind : MBind M := fun A B k m w =>
  match m w with
  | (inl e, w') => (inl e, w')
  | (inr a, w') => k a w'
  end.

Definition raise {A} (e : exn) : M A := fun w => (inl e, w).

Definition ask : M env := fun w => (inr (config w), w).

(** [datetime.utcnow()] *)
Definition utcnow : M datetime := fun w =>
  (inr (utc_clock (config w) (ticks w)),
   {| config := config w; files := files w; storage := storage w;
      ticks := S (ticks w); outbox := outbox w |}).

Definition load {R} (p : path R) : M (pydict R) := fun w =>
  (inr (_load p (files w)), w).

Definition save {R} (p : path R) (db : pydict R) : M unit := fun w =>
  (inr tt,
   {| config := config w; files := _save p db (files w); storage := storage w;
      ticks := ticks w; outbox := outbox w |}).

Definition send (o : output) : M unit := fun w =>
  (inr tt,
   {| config := config w; files := files w; storage := storage w;
      ticks := ticks w; outbox := outbox w ++ [o] |}).

Definition session_of (chat : Z) (w : world) : session :=
  default empty_session (storage w !! chat).

Definition put_session (chat : Z) (s : session) : M unit := fun w =>
  (inr tt,
   {| config := config w; files := files w; storage := <[chat := s]> (storage w);
      ticks := ticks w; outbox := outbox w |}).

Definition get_session (chat : Z) : M session := fun w => (inr (session_of chat w), w).

(** [await state.get_state()] *)
Definition get_state (chat : Z) : M (option State) :=
  s ← get_session chat; mret (state s).

(** [await state.set_state(st)] *)
Definition set_state (chat : Z) (st : State) : M unit :=
  s ← get_session chat; put_session chat {| state := Some st; data := data s |}.

(** [await state.get_data()] *)
Definition get_data (chat : Z) : M (pydict string) :=
  s ← get_session chat; mret (data s).

(** [await state.update_data(key=value)] *)
Definition update_data (chat : Z) (key value : string) : M unit :=
  s ← get_session chat;
  put_session chat {| state := state s; data := PyDict.set key value (data s) |}.

(** [await state.clear()]: no state and no data *)
Definition clear (chat : Z) : M unit := put_session chat empty_session.

(** [d[key]] on the session data *)
Definition getitem (key : string) (d : pydict string) : M string :=
  match PyDict.get key d with
  | Some v => mret v
  | None => raise (KeyError key)
  end.

(** *** Keyboards *)

Definition button (label cb : string) : InlineKeyboardButton :=
  {| text := label; callback_data := cb |}.

Definition main_menu : InlineKeyboardMarkup :=
  [ [button "💻 Презентация OSIO Focus" "menu_presentation"];
    [button "🛒 Купить" "menu_buy"];
    [button "🛠 Гарантийный сервис" "menu_warranty"];
    [button "📩 Контакты" "menu_contacts"] ].

Definition back_menu : InlineKeyboardMarkup :=
  [ [button "↩️ В меню" "menu_home"] ].

Definition presentation_kb : InlineKeyboardMarkup :=
  [ [button "🛒 Купить" "menu_buy"];
    [button "🛠 Гарантия" "menu_warranty"];
    [button "↩️ В меню" "menu_home"] ].

Definition delivery_kb : InlineKeyboardMarkup :=
  [ [button "Стандартная курьерская (3–5 дней)" "del_standard"];
    [button "Экспресс (1–2 дня)" "del_express"];
    [button "Самовывоз партнёр" "del_pickup"];
    [button "↩️ Назад" "buy_back"] ].

Definition yesno_kb : InlineKeyboardMarkup :=
  [ [button "Да" "yes"; button "Нет" "no"] ].

Definition warranty_progress_kb (ticket_id : string) : InlineKeyboardMarkup :=
  [ [button "⏳ Ожидать ответ ТЛ (3–5 раб. дней)" ("tl_wait:" +:+ ticket_id)];
    [button "🏥 Направить в АСЦ (2–3 дня)" ("asc_redirect:" +:+ ticket_id)];
    [button "📦 Контроль АСЦ и ЗЧ (3–7 дней)" ("asc_control:" +:+ ticket_id)];
    [button "🛠 Ремонт (7–30 дней)" ("repair:" +:+ ticket_id)];
    [button "📬 Передача клиенту (3–5 дней)" ("handover:" +:+ ticket_id)];
    [button "✅ Получение ОС" ("feedback:" +:+ ticket_id)];
    [button "↩️ В меню" "menu_home"] ].

(** *** Helpers *)

Definition nl : string := String (ascii_of_nat 10) EmptyString.

(** a comma after every third digit, counted from the right *)
Fixpoint commas_rev (s : string) (k : nat) : string :=
  match s with
  | EmptyString => EmptyString
  | String c s' =>
      match k with
      | O => String "," (String c (commas_rev s' 2))
      | S k' => String c (commas_rev s' k')
      end
  end.

(** the format specification [,] applied to a whole number *)
Definition format_commas (n : Z) : string :=
  (if (n <? 0)%Z then "-" else EmptyString) +:+
  PyStr.rev (commas_rev (PyStr.rev (PyStr.decimal (Z.abs_nat n))) 3).

(** [s.replace(a, b)] for single characters *)
Fixpoint replace_char (a b : ascii) (s : string) : string :=
  match s with
  | EmptyString => EmptyString
  | String c s' => String (if Ascii.eqb c a then b else c) (replace_char a b s')
  end.

Definition money (amount : Z) : string :=
  replace_char "," " " (format_commas amount +:+ " " +:+ BASE_CURRENCY).

Definition next_ticket_id : M string :=
  db ← load TICKETS_DB;
  let i := length db + 1 in
  now ← utcnow;
  mret ("T" +:+ strftime_Ymd now +:+ "-" +:+ PyStr.format_0d 4 i).

Definition next_order_id : M string :=
  db ← load ORDERS_DB;
  let i := length db + 1 in
  now ← utcnow;
  mret ("O" +:+ strftime_Ymd now +:+ "-" +:+ PyStr.format_0d 4 i).

(** how an f-string prints the result of [data.get(key)] *)
Definition show_get (key : string) (d : pydict string) : string :=
  default "None" (PyDict.get key d).

(** *** Start and menu *)

Definition cmd_start (chat : Z) (_ : string) : M unit :=
  send (Render chat Welcome main_menu).

Definition cb_home (chat : Z) (_ : string) : M unit :=
  send (Render chat MainMenu main_menu);;
  send (CallbackAnswer chat None false).

Definition cb_presentation (chat : Z) (_ : string) : M unit :=
  send (Render chat Presentation presentation_kb);;
  send (CallbackAnswer chat None false).

Definition cb_contacts (chat : Z) (_ : string) : M unit :=
  send (Render chat Contacts back_menu);;
  send (CallbackAnswer chat None false).

(** *** Buy flow *)

Definition cb_buy (chat : Z) (_ : string) : M unit :=
  set_state chat (Buy taking_name);;
  send (Answer chat ("🛒 <b>Оформление заказа</b>" +:+ nl +:+
                     "Как к вам обращаться (Имя и Фамилия)?") None);;
  send (CallbackAnswer chat None false).

Definition buy_name (chat : Z) (msg_text : string) : M unit :=
  update_data chat "name" (PyStr.strip msg_text);;
  set_state chat (Buy taking_email);;
  send (Answer chat "✉️ Ваша электронная почта (для счёта и отслеживания):" None).

(** the pattern [[^@]+@[^@]+\.[^@]+] *)
Definition email_pattern : Re.regex :=
  Re.Cat (Re.Plus (Re.NotLit "@"))
    (Re.Cat (Re.Lit "@")
       (Re.Cat (Re.Plus (Re.NotLit "@"))
          (Re.Cat (Re.Lit ".") (Re.Plus (Re.NotLit "@"))))).

Definition buy_email (chat : Z) (msg_text : string) : M unit :=
  let email := PyStr.strip msg_text in
  if negb (Re.re_match email_pattern email) then
    send (Answer chat "Похоже, это не похоже на email. Попробуйте ещё раз:" None)
  else
    update_data chat "email" email;;
    set_state chat (Buy taking_phone);;
    send (Answer chat "📞 Телефон (формат +27…):" None).

Definition buy_phone (chat : Z) (msg_text : string) : M unit :=
  update_data chat "phone" (PyStr.strip msg_text);;
  set_state chat (Buy taking_city);;
  send (Answer chat "🏙 Город в ЮАР (например, Кейптаун/Йоханнесбург/Дурбан):" None).

Definition buy_city (chat : Z) (msg_text : string) : M unit :=
  update_data chat "city" (PyStr.strip msg_text);;
  set_state chat (Buy taking_address);;
  send (Answer chat "🏠 Адрес доставки (улица, дом, индекс):" None).

Definition buy_address (chat : Z) (msg_text : string) : M unit :=
  update_data chat "address" (PyStr.strip msg_text);;
  set_state chat (Buy taking_delivery);;
  send (Answer chat "🚚 Выберите способ доставки:" (Some delivery_kb)).

Definition delivery_options : pydict string :=
  [ ("del_standard", "Стандартная (3–5 дней)");
    ("del_express", "Экспресс (1–2 дня)");
    ("del_pickup", "Самовывоз партнёр") ].

(** [options.get(cb.data, "Стандартная")] *)
Definition delivery_choice (cb_data : string) : string :=
  default "Стандартная" (PyDict.get cb_data delivery_options).

(** the dictionary literal of [buy_delivery]: three fixed entries, then the
    session data spread over them *)
Definition order_record (created : string) (d : pydict string) : order :=
  PyDict.update
    [ ("created_at", JStr created);
      ("product", JStr PRODUCT_name);
      ("price", JInt PRODUCT_price) ]
    (map (fun kv => (fst kv, JStr (snd kv))) d).

Definition confirmation (order_id : string) (d : pydict string) : string :=
  "✅ <b>Заказ создан</b>" +:+ nl +:+
  "Номер: <code>" +:+ order_id +:+ "</code>" +:+ nl +:+
  "Товар: " +:+ PRODUCT_name +:+ nl +:+
  "Сумма к оплате: <b>" +:+ money PRODUCT_price +:+ "</b>" +:+ nl +:+ nl +:+
  "Получатель: " +:+ show_get "name" d +:+ nl +:+
  "Email: " +:+ show_get "email" d +:+ nl +:+
  "Телефон: " +:+ show_get "phone" d +:+ nl +:+
  "Город: " +:+ show_get "city" d +:+ nl +:+
  "Адрес: " +:+ show_get "address" d +:+ nl +:+
  "Доставка: " +:+ show_get "delivery" d +:+ nl +:+ nl +:+
  "Мы свяжемся с вами для счёта и подтверждения." +:+ nl +:+
  "Если допустили ошибку — просто повторите /start и оформите заново.".

(** the operator is told only when [ADMIN_CHAT_ID] is set; a failure to
    send is swallowed *)
Definition notify_admin (note : admin_note) : M unit :=
  e ← ask;
  if String.eqb (ADMIN_CHAT_ID e) EmptyString then mret tt
  else send (SendAdmin note).

Definition buy_delivery (chat : Z) (cb_data : string) : M unit :=
  update_data chat "delivery" (delivery_choice cb_data);;
  d ← get_data chat;
  order_id ← next_order_id;
  db ← load ORDERS_DB;
  now ← utcnow;
  let db' := PyDict.set order_id (order_record (isoformat now) d) db in
  save ORDERS_DB db';;
  clear chat;;
  send (Answer chat (confirmation order_id d) (Some back_menu));;
  send (CallbackAnswer chat (Some "Заказ оформлен!") false);;
  notify_admin (NewOrder order_id (order_record (isoformat now) d)).

(** *** Warranty flow *)

Definition cb_warranty (chat : Z) (_ : string) : M unit :=
  set_state chat (Warranty taking_serial);;
  send (Render chat WarrantyIntro []);;
  send (CallbackAnswer chat None false).

Definition w_serial (chat : Z) (msg_text : string) : M unit :=
  e ← ask;
  let serial := PyStr.remove_whitespace (str_upper e msg_text) in
  update_data chat "serial" serial;;
  set_state chat (Warranty taking_issue);;
  send (Answer chat
          "Опишите проблему максимально подробно. Можно приложить фото/видео/логи."
          None).

Definition w_issue (chat : Z) (msg_text : string) : M unit :=
  update_data chat "issue" (PyStr.strip msg_text);;
  set_state chat (Warranty ask_remote);;
  send (Answer chat
          ("Готовы ли вы к удалённому подключению нашего инженера для быстрой диагностики? " +:+
           "(это ускоряет этап 2 — 15–30 минут)")
          (Some yesno_kb)).

Definition w_remote (chat : Z) (cb_data : string) : M unit :=
  d ← get_data chat;
  ticket_id ← next_ticket_id;
  db ← load TICKETS_DB;
  t0 ← utcnow;
  t1 ← utcnow;
  t2 ← utcnow;
  let record :=
    {| created_at := isoformat t0;
       serial := PyDict.get "serial" d;
       issue := PyDict.get "issue" d;
       remote_ok := String.eqb cb_data "yes";
       status := if String.eqb cb_data "yes" then "remote_scheduled" else "tl_wait";
       history :=
         [ {| ts := isoformat t1; event := "created" |};
           {| ts := isoformat t2; event := "remote_consent:" +:+ cb_data |} ] |} in
  save TICKETS_DB (PyDict.set ticket_id record db);;
  notify_admin (NewTicket ticket_id record);;
  (if String.eqb cb_data "yes" then
     set_state chat (Warranty schedule_remote);;
     send (Answer chat
             ("✅ Тикет <code>" +:+ ticket_id +:+ "</code> создан." +:+ nl +:+
              "Отправьте удобные <b>дата/время (UTC+2)</b> и контакт для удалённого подключения.")
             None)
   else
     set_state chat (Warranty tl_wait);;
     send (Answer chat
             ("✅ Тикет <code>" +:+ ticket_id +:+ "</code> создан." +:+ nl +:+
              "Мы передали запрос тимлиду (ТЛ). Ожидайте ответ в течение 3–5 рабочих дней.")
             (Some (warranty_progress_kb ticket_id))));;
  send (CallbackAnswer chat None false).

(** [a == b] where [a] may be [None] and [b] is text *)
Definition field_is (a : option string) (b : string) : bool :=
  match a with
  | Some x => String.eqb x b
  | None => false
  end.

(** the key of [sorted]: [x[1]["created_at"]] compared as text *)
Definition by_created_at (x y : string * ticket) : bool :=
  String.leb (created_at (snd x)) (created_at (snd y)).

(** the loop of [w_schedule_remote]: the first ticket, in the order given,
    whose serial and issue are those of the session; [data[...]] is looked
    up at every round and raises when the key is missing *)
Fixpoint find_ticket (d : pydict string) (items : list (string * ticket)) : M (option string) :=
  match items with
  | [] => mret None
  | (k, v) :: rest =>
      s ← getitem "serial" d;
      if field_is (serial v) s then
        i ← getitem "issue" d;
        if field_is (issue v) i then mret (Some k) else find_ticket d rest
      else find_ticket d rest
  end.

(** [bool(ticket_id)]: [None] and the empty text are false *)
Definition truthy (o : option string) : bool :=
  match o with
  | Some s => negb (String.eqb s EmptyString)
  | None => false
  end.

(** [db[ticket_id]["history"].append(entry); db[ticket_id]["status"] = st] *)
Definition advance (entry : hist_entry) (st : string) (t : ticket) : ticket :=
  {| created_at := created_at t; serial := serial t; issue := issue t;
     remote_ok := remote_ok t; status := st; history := history t ++ [entry] |}.

Definition w_schedule_remote (chat : Z) (msg_text : string) : M unit :=
  let schedule := PyStr.strip msg_text in
  update_data chat "schedule" schedule;;
  d ← get_data chat;
  db ← load TICKETS_DB;
  ticket_id ← find_ticket d (PySort.sorted by_created_at true db);
  (if truthy ticket_id then
     let k := default EmptyString ticket_id in
     match PyDict.get k db with
     | Some t =>
         now ← utcnow;
         let entry := {| ts := isoformat now; event := "remote_scheduled:" +:+ schedule |} in
         save TICKETS_DB (PyDict.set k (advance entry "remote_scheduled" t) db)
     | None => raise (KeyError k)
     end
   else mret tt);;
  set_state chat (Warranty tl_wait);;
  send (Answer chat
          "Инженер свяжется в указанный слот. Если проблема сохранится — эскалируем к ТЛ (3–5 рабочих дней)."
          (Some (warranty_progress_kb
                   (if truthy ticket_id then default EmptyString ticket_id else "unknown")))).

(** the table of [w_progress]: action -> (text shown, status written) *)
Definition mapping : pydict (string * string) :=
  [ ("tl_wait", ("Ожидание ответа ТЛ (3–5 раб. дней).", "tl_wait"));
    ("asc_redirect", ("Направлено в АСЦ. В особых случаях — забор курьером (2–3 дня).", "asc_redirect"));
    ("asc_control", ("Контроль АСЦ и логистики ЗЧ (3–7 дней).", "asc_control"));
    ("repair", ("Ремонт (7–30 дней).", "repair"));
    ("handover", ("Передача устройства клиенту (3–5 дней).", "handover"));
    ("feedback", ("Получение ОС. Спасибо за обратную связь!", "closed")) ].

Definition w_progress (chat : Z) (cb_data : string) : M unit :=
  let '(action, _, ticket_id) := PyStr.partition ":" cb_data in
  db ← load TICKETS_DB;
  match PyDict.get ticket_id db with
  | None => send (CallbackAnswer chat (Some "Тикет не найден") true)
  | Some t =>
      match PyDict.get action mapping with
      | None => raise (KeyError action)
      | Some (body, st) =>
          now ← utcnow;
          let entry := {| ts := isoformat now; event := action |} in
          save TICKETS_DB (PyDict.set ticket_id (advance entry st t) db);;
          send (Answer chat ("🔄 Тикет <code>" +:+ ticket_id +:+ "</code>: " +:+ body) None);;
          send (CallbackAnswer chat None false)
      end
  end.

(** *** Operator queries *)

(** [str(n)] for a whole number *)
Definition str_of_Z (n : Z) : string :=
  (if (n <? 0)%Z then "-" else EmptyString) +:+ PyStr.decimal (Z.abs_nat n).

Definition is_admin (e : env) (chat : Z) : bool :=
  negb (String.eqb (ADMIN_CHAT_ID e) EmptyString)
  && String.eqb (str_of_Z chat) (ADMIN_CHAT_ID e).

Definition admin_orders (chat : Z) (_ : string) : M unit :=
  e ← ask;
  if negb (is_admin e chat) then mret tt
  else
    db ← load ORDERS_DB;
    match db with
    | [] => send (Answer chat "Нет заказов." None)
    | _ => send (OrdersList chat db)
    end.

Definition admin_tickets (chat : Z) (_ : string) : M unit :=
  e ← ask;
  if negb (is_admin e chat) then mret tt
  else
    db ← load TICKETS_DB;
    match db with
    | [] => send (Answer chat "Нет тикетов." None)
    | _ => send (TicketsList chat db)
    end.

(** *** Routing

    The router tries its handlers in the order they were registered and
    runs the first one whose filters hold; message handlers and callback
    handlers are registered apart. *)

Definition handler : Type := Z -> string -> M unit.

Definition filter : Type := env -> option State -> string -> bool.

Definition in_state (st : State) : filter :=
  fun _ cur _ => bool_decide (cur = Some st).

Definition data_is (d : string) : filter :=
  fun _ _ payload => String.eqb payload d.

Definition both (f g : filter) : filter :=
  fun e cur payload => f e cur payload && g e cur payload.

(** [F.data.startswith(p)] *)
Definition data_startswith (p : string) : filter :=
  fun _ _ payload => PyStr.startswith p payload.

(** [F.data.startswith((p1, p2, ...))] *)
Definition data_startswith_any (ps : list string) : filter :=
  fun _ _ payload => PyStr.startswith_any ps payload.

(** [F.data.in_({...})] *)
Definition data_in (options : list string) : filter :=
  fun _ _ payload => existsb (String.eqb payload) options.

(** [Command(name)], also [CommandStart()] for the name start *)
Definition command (name : string) : filter :=
  fun e _ payload => is_command e name payload.

Definition stage_prefixes : list string :=
  ["tl_wait"; "asc_redirect"; "asc_control"; "repair"; "handover"; "feedback"].

Definition message_handlers : list (filter * handler) :=
  [ (command "start", cmd_start);
    (in_state (Buy taking_name), buy_name);
    (in_state (Buy taking_email), buy_email);
    (in_state (Buy taking_phone), buy_phone);
    (in_state (Buy taking_city), buy_city);
    (in_state (Buy taking_address), buy_address);
    (in_state (Warranty taking_serial), w_serial);
    (in_state (Warranty taking_issue), w_issue);
    (in_state (Warranty schedule_remote), w_schedule_remote);
    (command "orders", admin_orders);
    (command "tickets", admin_tickets) ].

Definition callback_handlers : list (filter * handler) :=
  [ (data_is "menu_home", cb_home);
    (data_is "menu_presentation", cb_presentation);
    (data_is "menu_contacts", cb_contacts);
    (data_is "menu_buy", cb_buy);
    (both (in_state (Buy taking_delivery)) (data_startswith "del_"), buy_delivery);
    (data_is "menu_warranty", cb_warranty);
    (both (in_state (Warranty ask_remote)) (data_in ["yes"; "no"]), w_remote);
    (data_startswith_any stage_prefixes, w_progress) ].

Definition route (table : list (filter * handler)) (chat : Z) (payload : string) : M unit :=
  e ← ask;
  cur ← get_state chat;
  match find (fun fh => fst fh e cur payload) table with
  | Some fh => snd fh chat payload
  | None => mret tt
  end.

(** What reaches the bot: a text message or a pressed inline button. *)
Inductive update : Type :=
| Message (chat : Z) (msg_text : string)
| CallbackQuery (chat : Z) (cb_data : string).

Definition dispatch (u : update) : M unit :=
  match u with
  | Message chat msg_text => route message_handlers chat msg_text
  | CallbackQuery chat cb_data => route callback_handlers chat cb_data
  end.

(** the world after an update; a handler that raised leaves what it had
    already done *)
Definition step (w : world) (u : update) : world := snd (dispatch u w).

Definition run (w : world) (us : list update) : world := fold_left step us w.

(** a fresh process on an empty data directory *)
Definition boot (e : env) : world :=
  {| config := e;
     files := {| orders_json := Missing; tickets_json := Missing |};
     storage := ∅; ticks := 0; outbox := [] |}.

(** what the two collections hold, as [_load] reads them *)
Definition tickets (w : world) : pydict ticket := _load TICKETS_DB (files w).
Definition orders (w : world) : pydict order := _load ORDERS_DB (files w).

End Bot.

(** ** The specification's vocabulary

    What the specification names and the code does not: the shape of an
    e-mail address, the six stage actions and their table of statuses. *)

Module Spec.

(** the text has no character [c] *)
Fixpoint lacks (c : ascii) (s : string) : bool :=
  match s with
  | EmptyString => true
  | String x s' => negb (Ascii.eqb x c) && lacks c s'
  end.

Definition part (s : string) : Prop := s <> EmptyString /\ lacks "@" s = true.

Definition email_shaped (s : string) : Prop :=
  exists loc domain tld rest,
    s = loc +:+ "@" +:+ domain +:+ "." +:+ tld +:+ rest
    /\ part loc /\ part domain /\ part tld.

(** the six stage-advance actions of section 4.4 *)
Inductive stage_action : Type :=
| act_tl_wait | act_asc_redirect | act_asc_control | act_repair | act_handover | act_feedback.

Definition action_name (a : stage_action) : string :=
  match a with
  | act_tl_wait => "tl_wait"
  | act_asc_redirect => "asc_redirect"
  | act_asc_control => "asc_control"
  | act_repair => "repair"
  | act_handover => "handover"
  | act_feedback => "feedback"
  end.

Definition mapped_status (a : stage_action) : string :=
  match a with
  | act_tl_wait => "tl_wait"
  | act_asc_redirect => "asc_redirect"
  | act_asc_control => "asc_control"
  | act_repair => "repair"
  | act_handover => "handover"
  | act_feedback => "closed"
  end.

(** a stored ticket whose serial and issue both equal the given ones *)
Definition same_device (s i : string) (kv : string * Bot.ticket) : bool :=
  Bot.field_is (Bot.serial (snd kv)) s && Bot.field_is (Bot.issue (snd kv)) i.

(** the three delivery options offered by the keyboard *)
Definition fixed_delivery_options : list string :=
  ["del_standard"; "del_express"; "del_pickup"].

(** what the delivery step does for a chat that is in taking_delivery:
    a pressed button whose data starts with del_ completes the order, with
    the option's label (Стандартная for data outside the three options);
    any other button and any message leaves the orders file as it is and
    the session in a state *)
Definition delivery_contract (chat : Z) (w : Bot.world) : Prop :=
  (forall cb_data,
      PyStr.startswith "del_" cb_data = true ->
      let '(res, w') := Bot.dispatch (Bot.CallbackQuery chat cb_data) w in
      exists order_id stamp,
        res = inr tt /\
        Bot.orders w' =
          PyDict.set order_id
            (Bot.order_record stamp
               (PyDict.set "delivery" (Bot.delivery_choice cb_data)
                  (Bot.data (Bot.session_of chat w))))
            (Bot.orders w) /\
        Bot.session_of chat w' = Bot.empty_session) /\
  (forall cb_data,
      PyStr.startswith "del_" cb_data = false ->
      let w' := Bot.step w (Bot.CallbackQuery chat cb_data) in
      Bot.orders_json (Bot.files w') = Bot.orders_json (Bot.files w) /\
      Bot.state (Bot.session_of chat w') <> None) /\
  (forall msg_text,
      let w' := Bot.step w (Bot.Message chat msg_text) in
      Bot.files w' = Bot.files w /\
      Bot.session_of chat w' = Bot.session_of chat w) /\
  Bot.delivery_choice "del_standard" = "Стандартная (3–5 дней)" /\
  Bot.delivery_choice "del_express" = "Экспресс (1–2 дня)" /\
  Bot.delivery_choice "del_pickup" = "Самовывоз партнёр" /\
  (forall cb_data, ~ In cb_data fixed_delivery_options ->
                   Bot.delivery_choice cb_data = "Стандартная").

(** events that record a stage transition: the six stage actions and
    remote_scheduled:<text>; created and remote_consent:<answer> only
    inform *)
Definition stage_event (ev : string) : bool :=
  existsb (String.eqb ev) (map action_name
    [act_tl_wait; act_asc_redirect; act_asc_control; act_repair; act_handover; act_feedback])
  || PyStr.startswith "remote_scheduled:" ev.

(** the most recently appended stage-transition event of a history *)
Fixpoint last_stage_event (h : list Bot.hist_entry) : option string :=
  match h with
  | [] => None
  | e :: h' =>
      match last_stage_event h' with
      | Some ev => Some ev
      | None => if stage_event (Bot.event e) then Some (Bot.event e) else None
      end
  end.

(** the claim as the specification words it: the status is the name of the
    most recent stage-transition event *)
Definition status_is_last_event_name (t : Bot.ticket) : Prop :=
  forall ev, last_stage_event (Bot.history t) = Some ev -> Bot.status t = ev.

(** the status a stage-transition event stands for: closed for feedback,
    remote_scheduled for remote_scheduled:<text>, the event's own name for
    the other five actions *)
Definition status_written (ev : string) : string :=
  if String.eqb ev "feedback" then "closed"
  else if PyStr.startswith "remote_scheduled:" ev then "remote_scheduled"
  else ev.

(** the status a ticket must show: the one its most recent stage-transition
    event stands for, and before any such event the status given at
    creation *)
Definition expected_status (t : Bot.ticket) : string :=
  match last_stage_event (Bot.history t) with
  | Some ev => status_written ev
  | None => if Bot.remote_ok t then "remote_scheduled" else "tl_wait"
  end.

(** a later store keeps every ticket of an earlier one, with the same
    creation data and a history that only grew at its end *)
Definition grows (db db' : pydict Bot.ticket) : Prop :=
  forall k t,
    PyDict.get k db = Some t ->
    exists t' more,
      PyDict.get k db' = Some t' /\
      Bot.history t' = (Bot.history t ++ more)%list /\
      Bot.created_at t' = Bot.created_at t /\
      Bot.serial t' = Bot.serial t /\
      Bot.issue t' = Bot.issue t /\
      Bot.remote_ok t' = Bot.remote_ok t.

End Spec.

(** ** What a run keeps true of the ticket store *)

Module Invariant.

Import Bot Spec.

(** the ticket stored at position [i] (from 0) carries the number [i+1] *)
Definition id_ok (i : nat) (k : string) : Prop :=
  exists date, PyStr.all_digits date = true /\
               k = "T" +:+ date +:+ "-" +:+ PyStr.format_0d 4 (i + 1).

(** identifiers are numbered by position and every ticket shows the status
    its history calls for *)
Definition store_ok (db : pydict ticket) : Prop :=
  (forall i k, nth_error (PyDict.keys db) i = Some k -> id_ok i k) /\
  (forall k t, In (k, t) db -> status t = expected_status t).

(** a handler's outcome keeps the store in order and lets histories only
    grow *)
Definition keeps (w : world) (r : (exn + unit) * world) : Prop :=
  store_ok (tickets w) ->
  store_ok (tickets (snd r)) /\ grows (tickets w) (tickets (snd r)).

End Invariant.

(** ** A small deployment to run the bot on *)

Module Demo.

Import Bot DateTime.

Definition upper_char (c : ascii) : ascii :=
  let n := nat_of_ascii c in
  if ((97 <=? n) && (n <=? 122))%nat then ascii_of_nat (n - 32) else c.

(** upper case of a text without letters outside ASCII *)
Fixpoint upper (s : string) : string :=
  match s with
  | EmptyString => EmptyString
  | String c s' => String (upper_char c) (upper s')
  end.

(** a clock that advances one second at every reading *)
Definition clock (n : nat) : datetime :=
  {| year := 2024; month := 3; day := 7; hour := 9;
     minute := (n / 60) mod 60; second := n mod 60; microsecond := 0 |}.

Definition env : Bot.env :=
  {| ADMIN_CHAT_ID := "1001";
     utc_clock := clock;
     is_command := fun name body => String.eqb body ("/" +:+ name);
     str_upper := upper |}.

(** a customer opens a ticket and answers the consent question *)
Definition warranty (consent : string) : list update :=
  [ CallbackQuery 7 "menu_warranty"; Message 7 " sn-01 ";
    Message 7 "screen flicker"; CallbackQuery 7 consent ].

(** a customer answers the five text questions of the order flow *)
Definition buy_questions : list update :=
  [ CallbackQuery 7 "menu_buy"; Message 7 "Ann Lee"; Message 7 "a@b.co";
    Message 7 "+27 10 555 0123"; Message 7 "Cape Town";
    Message 7 "1 Long Street, 8001" ].

End Demo.

(** ** Whole conversations *)

Module Flows.

Import Bot.

(** an order flow of one chat: the menu button, the five answers, the
    delivery button *)
Definition order_flow (chat : Z) (name email phone city address choice : string)
  : list update :=
  [ CallbackQuery chat "menu_buy"; Message chat name; Message chat email;
    Message chat phone; Message chat city; Message chat address;
    CallbackQuery chat choice ].

(** a warranty flow of one chat up to the consent answer *)
Definition warranty_flow (chat : Z) (serial_text issue_text consent : string)
  : list update :=
  [ CallbackQuery chat "menu_warranty"; Message chat serial_text;
    Message chat issue_text; CallbackQuery chat consent ].

(** what a step that only touches the chat's session leaves behind *)
Definition moved (chat : Z) (s : session) (w w' : world) : Prop :=
  config w' = config w /\ files w' = files w /\ ticks w' = ticks w /\
  session_of chat w' = s.

(** what a step that stores one answer leaves behind *)
Definition stored (chat : Z) (key value : string) (next : State) (w w' : world) : Prop :=
  moved chat
    {| state := Some next; data := PyDict.set key value (data (session_of chat w)) |}
    w w'.

(** the keys of a collection are numbered by their position: the key at
    position [i] (from 0) is the prefix, a run of digits, a dash and [i+1]
    in the format 04d *)
Definition numbered {R} (prefix : string) (db : pydict R) : Prop :=
  forall i k, nth_error (PyDict.keys db) i = Some k ->
    exists date, PyStr.all_digits date = true /\
                 k = prefix +:+ date +:+ "-" +:+ PyStr.format_0d 4 (i + 1).

(** a later collection holds every record of an earlier one unchanged *)
Definition preserved {R} (db db' : pydict R) : Prop :=
  forall k r, PyDict.get k db = Some r -> PyDict.get k db' = Some r.

(** a handler's outcome keeps the orders numbered and every order as it was *)
Definition keeps_orders (w : world) (r : (exn + unit) * world) : Prop :=
  numbered "O" (orders w) ->
  numbered "O" (orders (snd r)) /\ preserved (orders w) (orders (snd r)).

(** the chat an update comes from *)
Definition chat_of (u : update) : Z :=
  match u with
  | Message chat _ => chat
  | CallbackQuery chat _ => chat
  end.

(** an output is fit to be sent while handling an update of [chat]: a
    listing of orders or tickets goes to that chat only, and only when it is
    the operator's *)
Definition fit_for (e : env) (chat : Z) (o : output) : Prop :=
  match o with
  | OrdersList c _ | TicketsList c _ => c = chat /\ is_admin e chat = true
  | _ => True
  end.

(** a handler's outcome only adds outputs, all of them fit *)
Definition sends_fit (chat : Z) (w : world) (r : (exn + unit) * world) : Prop :=
  exists new, outbox (snd r) = (outbox w ++ new)%list /\
              Forall (fit_for (config w) chat) new.

(** the answers a state relies on are in the session: the e-mail address
    once the phone is asked for, the serial once the issue is asked for,
    serial and issue from the consent question on *)
Definition ready (s : session) : bool :=
  match state s with
  | Some (Buy taking_phone) | Some (Buy taking_city)
  | Some (Buy taking_address) | Some (Buy taking_delivery) =>
      PyDict.mem "email" (data s)
  | Some (Warranty taking_issue) => PyDict.mem "serial" (data s)
  | Some (Warranty ask_remote) | Some (Warranty schedule_remote) =>
      PyDict.mem "serial" (data s) && PyDict.mem "issue" (data s)
  | _ => true
  end.

(** the fields the operator's listing of orders reads with [v[...]] *)
Definition order_listable (r : order) : bool :=
  PyDict.mem "product" r && PyDict.mem "price" r && PyDict.mem "email" r.

(** the listing of tickets slices [v["issue"][:40]]: the issue must be a
    text, not [None] *)
Definition ticket_listable (t : ticket) : bool :=
  match issue t with Some _ => true | None => false end.

Definition listable (w : world) : Prop :=
  (forall k r, In (k, r) (orders w) -> order_listable r = true) /\
  (forall k t, In (k, t) (tickets w) -> ticket_listable t = true).

(** what holds of every world the bot reaches *)
Definition sound (w : world) : Prop :=
  (forall c, ready (session_of c w) = true) /\ listable w.


End Flows.

(** * Properties *)

(** ** Dictionaries *)

Module PyDictFacts.
Import PyDict.

Section Facts.
Context {V : Type}.
Implicit Types (d : pydict V) (k : string) (v : V).

Lemma get_set_eq k v d : get k (set k v d) = Some v.
Proof.
  induction d as [|[k' v'] d IH]; simpl.
  - now rewrite String.eqb_refl.
  - destruct (String.eqb k k') eqn:E; simpl; rewrite E; auto.
Qed.

Lemma get_set_ne k k' v d : k <> k' -> get k' (set k v d) = get k' d.
Proof.
  intros Hne. induction d as [|[k0 v0] d IH]; simpl.
  - destruct (String.eqb_spec k' k); congruence.
  - destruct (String.eqb_spec k k0) as [->|Hk]; simpl.
    + destruct (String.eqb_spec k' k0); congruence.
    + now rewrite IH.
Qed.

Lemma get_Some_In k v d : get k d = Some v -> In (k, v) d.
Proof.
  induction d as [|[k' v'] d IH]; simpl; [discriminate|].
  destruct (String.eqb_spec k k') as [->|Hk].
  - intros [= ->]. now left.
  - intros H. right. auto.
Qed.

Lemma get_None_keys k d : get k d = None <-> ~ In k (keys d).
Proof.
  induction d as [|[k' v'] d IH]; simpl.
  - tauto.
  - destruct (String.eqb_spec k k') as [->|Hk].
    + split; [discriminate | intros H; exfalso; apply H; now left].
    + rewrite IH. split; [intros H [E|E]; congruence | tauto].
Qed.

Lemma In_get k v d : wf d -> In (k, v) d -> get k d = Some v.
Proof.
  unfold wf. induction d as [|[k' v'] d IH]; simpl; [tauto|].
  intros Hnd [E|Hin].
  - inversion E; subst. now rewrite String.eqb_refl.
  - inversion Hnd as [|? ? Hnot Hnd']; subst.
    destruct (String.eqb_spec k k') as [->|Hk]; [|auto].
    exfalso. apply Hnot. change k' with (fst (k', v)). now apply in_map.
Qed.

(** writing under a key already present keeps every key in its place *)
Lemma keys_set_present k v d : In k (keys d) -> keys (set k v d) = keys d.
Proof.
  induction d as [|[k' v'] d IH]; simpl; [tauto|].
  destruct (String.eqb_spec k k') as [->|Hk]; simpl; [reflexivity|].
  intros [E|Hin]; [congruence|]. now rewrite IH.
Qed.

(** writing under a new key puts the entry at the end *)
Lemma set_absent k v d : ~ In k (keys d) -> set k v d = (d ++ [(k, v)])%list.
Proof.
  induction d as [|[k' v'] d IH]; simpl; [reflexivity|].
  intros Hnot. destruct (String.eqb_spec k k') as [->|Hk]; [tauto|].
  rewrite IH; tauto.
Qed.

Lemma length_set_present k v d : In k (keys d) -> length (set k v d) = length d.
Proof.
  intros H. rewrite <- (length_map fst (set k v d)), <- (length_map fst d).
  change (length (keys (set k v d)) = length (keys d)). now rewrite keys_set_present.
Qed.

Lemma wf_set k v d : wf d -> wf (set k v d).
Proof.
  unfold wf. intros Hd.
  destruct (in_dec string_dec k (keys d)) as [Hin|Hnot].
  - now rewrite keys_set_present.
  - rewrite set_absent by assumption. unfold keys. rewrite map_app. simpl.
    apply List.NoDup_app; repeat split; auto.
    + constructor; [intros [] | constructor].
    + intros x Hx [<-|[]]. contradiction.
Qed.

Lemma get_Some_keys k v d : get k d = Some v -> In k (keys d).
Proof.
  intros H. apply get_Some_In in H. change k with (fst (k, v)). now apply in_map.
Qed.
End Facts.

End PyDictFacts.

Module PyStrFacts.
Import PyStr.

Lemma is_digit_cases c :
  is_digit c = true ->
  In c ["0"; "1"; "2"; "3"; "4"; "5"; "6"; "7"; "8"; "9"]%char.
Proof.
  destruct c as [[] [] [] [] [] [] [] []]; vm_compute; intros H;
    try discriminate; tauto.
Qed.

Lemma digits_of_uint d : all_digits (NilEmpty.string_of_uint d) = true.
Proof. induction d; simpl; auto. Qed.

Lemma all_digits_decimal n : all_digits (decimal n) = true.
Proof.
  unfold decimal, NilZero.string_of_uint.
  destruct (Nat.to_uint n) eqn:E; try reflexivity; rewrite <- E; apply digits_of_uint.
Qed.

Lemma all_digits_app s t : all_digits (s +:+ t) = all_digits s && all_digits t.
Proof. induction s; simpl; auto. rewrite IHs. now rewrite andb_assoc. Qed.

Lemma all_digits_zeros n : all_digits (replicate_char n "0") = true.
Proof. induction n; simpl; auto. Qed.

Lemma all_digits_format w n : all_digits (format_0d w n) = true.
Proof.
  unfold format_0d. now rewrite all_digits_app, all_digits_zeros, all_digits_decimal.
Qed.

Lemma to_uint_nonnil n : Nat.to_uint n <> Decimal.Nil.
Proof.
  intros H. pose proof (Unsigned.to_of (Nat.to_uint n)) as E.
  rewrite Unsigned.of_to in E. rewrite H in E. discriminate.
Qed.

Lemma parse_decimal_decimal n : parse_decimal (decimal n) = Some n.
Proof.
  unfold parse_decimal, decimal.
  rewrite NilZero.usu by apply to_uint_nonnil. simpl. now rewrite Unsigned.of_to.
Qed.

Lemma decimal_nonempty n : decimal n <> EmptyString.
Proof.
  intros H. pose proof (parse_decimal_decimal n) as E. rewrite H in E. discriminate.
Qed.

Lemma parse_decimal_zero s :
  s <> EmptyString -> parse_decimal (String "0" s) = parse_decimal s.
Proof.
  unfold parse_decimal, NilZero.uint_of_string. intros Hs.
  destruct s as [|c s]; [congruence|].
  cbn [NilEmpty.uint_of_string].
  destruct (uint_of_char c (NilEmpty.uint_of_string s)) as [d|]; reflexivity.
Qed.

Lemma parse_decimal_zeros k s :
  s <> EmptyString -> parse_decimal (replicate_char k "0" +:+ s) = parse_decimal s.
Proof.
  intros Hs. induction k as [|k IH]; [reflexivity|].
  cbn [replicate_char String.append].
  rewrite parse_decimal_zero; [exact IH|].
  destruct k; cbn [replicate_char String.append]; [assumption | discriminate].
Qed.

Lemma parse_decimal_format w n : parse_decimal (format_0d w n) = Some n.
Proof.
  unfold format_0d. rewrite parse_decimal_zeros by apply decimal_nonempty.
  apply parse_decimal_decimal.
Qed.

Lemma format_0d_inj w n m : format_0d w n = format_0d w m -> n = m.
Proof.
  intros H. pose proof (parse_decimal_format w n) as E.
  rewrite H, parse_decimal_format in E. congruence.
Qed.




End PyStrFacts.

Module PySortFacts.
Import PySort.

Lemma leb_refl s : String.leb s s = true.
Proof. destruct (String.leb_total s s); assumption. Qed.


Section Facts.
Context {A : Type} (le : A -> A -> bool).
Hypothesis le_total : forall x y, le x y = true \/ le y x = true.
Hypothesis le_trans : forall x y z, le x y = true -> le y z = true -> le x z = true.

Lemma In_insert x y l : In x (insert le y l) <-> x = y \/ In x l.
Proof.
  induction l as [|z l IH]; simpl.
  - intuition.
  - destruct (le y z); simpl; rewrite ?IH; intuition.
Qed.

Lemma In_stable_sort x l : In x (stable_sort le l) <-> In x l.
Proof.
  induction l as [|y l IH]; simpl; [tauto|].
  rewrite In_insert, IH. intuition.
Qed.




Lemma In_sorted r x l : In x (sorted le r l) <-> In x l.
Proof.
  unfold sorted. destruct r.
  - rewrite <- in_rev, In_stable_sort, <- in_rev. tauto.
  - apply In_stable_sort.
Qed.




Lemma find_none_sorted (f : A -> bool) r l :
  find f (sorted le r l) = None <-> forall y, In y l -> f y = false.
Proof.
  split.
  - intros H y Hy. apply (find_none _ _ H). now apply In_sorted.
  - intros H. destruct (find f (sorted le r l)) eqn:E; [|reflexivity].
    apply find_some in E as [Hin Hf]. apply In_sorted in Hin.
    rewrite (H _ Hin) in Hf. discriminate.
Qed.
End Facts.

End PySortFacts.

Module ReFacts.
Import Re.

Lemma append_nil_r s : s +:+ EmptyString = s.
Proof. induction s; simpl; congruence. Qed.

Lemma append_assoc s t u : (s +:+ t) +:+ u = s +:+ t +:+ u.
Proof. induction s; simpl; congruence. Qed.

Lemma append_eq_nil s t : s +:+ t = EmptyString -> s = EmptyString /\ t = EmptyString.
Proof. destruct s; simpl; [auto | discriminate]. Qed.

Lemma lang_cat_inv r1 r2 s :
  lang (Cat r1 r2) s -> exists s1 s2, s = s1 +:+ s2 /\ lang r1 s1 /\ lang r2 s2.
Proof. intros H. inversion H; subst. eauto. Qed.

Lemma lang_alt_inv r1 r2 s : lang (Alt r1 r2) s -> lang r1 s \/ lang r2 s.
Proof. intros H. inversion H; subst; auto. Qed.

Lemma lang_lit_inv c s : lang (Lit c) s -> s = String c EmptyString.
Proof. intros H. inversion H; subst; auto. Qed.

Lemma lang_notlit_inv c s :
  lang (NotLit c) s -> exists x, x <> c /\ s = String x EmptyString.
Proof. intros H. inversion H; subst; eauto. Qed.

Lemma nullable_spec r : nullable r = true <-> lang r EmptyString.
Proof.
  induction r; simpl.
  - split; [discriminate | intros H; inversion H].
  - split; [constructor | reflexivity].
  - split; [discriminate | intros H; inversion H].
  - split; [discriminate | intros H; inversion H].
  - rewrite andb_true_iff, IHr1, IHr2. split.
    + intros [H1 H2]. change EmptyString with (EmptyString +:+ EmptyString).
      now constructor.
    + intros H. apply lang_cat_inv in H as (s1 & s2 & E & L1 & L2). symmetry in E.
      apply append_eq_nil in E as [-> ->]. auto.
  - rewrite orb_true_iff, IHr1, IHr2. split.
    + intros [H|H]; [now apply lang_alt_l | now apply lang_alt_r].
    + apply lang_alt_inv.
  - split; [constructor | reflexivity].
Qed.

(** a non-empty match of a starred pattern starts with a non-empty match
    of the pattern *)
Lemma lang_star_cons_inv r x s :
  lang (Star r) (String x s) ->
  exists s1 s2, s = s1 +:+ s2 /\ lang r (String x s1) /\ lang (Star r) s2.
Proof.
  intros H. remember (Star r) as q eqn:Eq. remember (String x s) as u eqn:Eu.
  revert Eq Eu.
  induction H as [| | | | | | |r0 s1 s2 L1 _ L2 IH]; try discriminate.
  intros [= ->] Eu. destruct s1 as [|y s1]; simpl in Eu.
  - now apply IH.
  - injection Eu as -> <-. eauto.
Qed.

Lemma deriv_spec x r s : lang (deriv x r) s <-> lang r (String x s).
Proof.
  revert s. induction r; intros s; simpl.
  - split; intros H; inversion H.
  - split; intros H; inversion H.
  - destruct (Ascii.eqb_spec x c) as [->|Hne]; split; intros H; inversion H; subst;
      try constructor; congruence.
  - destruct (Ascii.eqb_spec x c) as [->|Hne]; split; intros H; inversion H; subst;
      try (now constructor); congruence.
  - assert (Hcat : lang (Cat (deriv x r1) r2) s ->
                   lang (Cat r1 r2) (String x s)).
    { intros H. apply lang_cat_inv in H as (s1 & s2 & -> & L1 & L2).
      change (String x (s1 +:+ s2)) with (String x s1 +:+ s2).
      constructor; [now apply IHr1 | assumption]. }
    assert (Hinv : lang (Cat r1 r2) (String x s) ->
                   lang (Cat (deriv x r1) r2) s \/
                   (lang r1 EmptyString /\ lang (deriv x r2) s)).
    { intros H. apply lang_cat_inv in H as (s1 & s2 & E & L1 & L2).
      destruct s1 as [|y s1]; simpl in E.
      - right. subst s2. split; [assumption | now apply IHr2].
      - injection E as <- ->. left. constructor; [now apply IHr1 | assumption]. }
    destruct (nullable r1) eqn:N.
    + split.
      * intros H. apply lang_alt_inv in H as [H|H]; [now apply Hcat|].
        change (String x s) with (EmptyString +:+ String x s).
        constructor; [now apply nullable_spec | now apply IHr2].
      * intros H. destruct (Hinv H) as [H'|[_ H']];
          [now apply lang_alt_l | now apply lang_alt_r].
    + split; [exact Hcat|].
      intros H. destruct (Hinv H) as [H'|[H' _]]; [assumption|].
      apply nullable_spec in H'. congruence.
  - split; intros H.
    + apply lang_alt_inv in H as [H|H];
        [apply lang_alt_l; now apply IHr1 | apply lang_alt_r; now apply IHr2].
    + apply lang_alt_inv in H as [H|H];
        [apply lang_alt_l; now apply IHr1 | apply lang_alt_r; now apply IHr2].
  - split.
    + intros H. apply lang_cat_inv in H as (s1 & s2 & -> & L1 & L2).
      change (String x (s1 +:+ s2)) with (String x s1 +:+ s2).
      constructor; [now apply IHr | assumption].
    + intros H. apply lang_star_cons_inv in H as (s1 & s2 & -> & L1 & L2).
      constructor; [now apply IHr | assumption].
Qed.

(** [re_match] finds a match at the start of the text exactly when some
    text at the start belongs to the pattern's language *)
Theorem re_match_spec r s :
  re_match r s = true <-> exists p rest, s = p +:+ rest /\ lang r p.
Proof.
  revert r. induction s as [|x s IH]; intros r; simpl.
  - rewrite orb_false_r, nullable_spec. split.
    + intros H. exists EmptyString, EmptyString. auto.
    + intros (p & rest & E & L). symmetry in E. apply append_eq_nil in E as [-> _].
      assumption.
  - rewrite orb_true_iff, nullable_spec, IH. split.
    + intros [H|(p & rest & -> & L)].
      * exists EmptyString, (String x s). auto.
      * exists (String x p), rest. split; [reflexivity | now apply deriv_spec].
    + intros (p & rest & E & L). destruct p as [|y p]; simpl in E.
      * now left.
      * injection E as -> ->. right. exists p, rest. split; [reflexivity|].
        now apply deriv_spec.
Qed.

End ReFacts.

Module EmailFacts.
Import Re ReFacts Spec.

Lemma lang_star_notlit c s : lang (Star (NotLit c)) s <-> lacks c s = true.
Proof.
  split.
  - intros H. remember (Star (NotLit c)) as q eqn:Eq. revert Eq.
    induction H as [| | | | | | |r0 s1 s2 L1 _ L2 IH]; try discriminate.
    + reflexivity.
    + intros [= ->]. apply lang_notlit_inv in L1 as (x & Hx & ->). simpl.
      rewrite IH by reflexivity. apply Ascii.eqb_neq in Hx. now rewrite Hx.
  - induction s as [|x s IH]; simpl; [constructor|].
    intros H. apply andb_true_iff in H as [Hx Hs].
    change (String x s) with (String x EmptyString +:+ s).
    constructor; [|auto]. constructor.
    apply Ascii.eqb_neq. now destruct (Ascii.eqb x c).
Qed.

Lemma lang_plus_notlit c s :
  lang (Plus (NotLit c)) s <-> s <> EmptyString /\ lacks c s = true.
Proof.
  unfold Plus. split.
  - intros H. apply lang_cat_inv in H as (s1 & s2 & -> & L1 & L2).
    apply lang_notlit_inv in L1 as (x & Hx & ->). apply lang_star_notlit in L2.
    simpl. split; [discriminate|]. rewrite L2.
    apply Ascii.eqb_neq in Hx. now rewrite Hx.
  - intros [Hne H]. destruct s as [|x s]; [congruence|]. simpl in H.
    apply andb_true_iff in H as [Hx Hs].
    change (String x s) with (String x EmptyString +:+ s).
    constructor; [|now apply lang_star_notlit]. constructor.
    apply Ascii.eqb_neq. now destruct (Ascii.eqb x c).
Qed.

Lemma lang_email_pattern p :
  lang Bot.email_pattern p <->
  exists loc domain tld,
    p = loc +:+ "@" +:+ domain +:+ "." +:+ tld /\ part loc /\ part domain /\ part tld.
Proof.
  unfold Bot.email_pattern, part. split.
  - intros H.
    apply lang_cat_inv in H as (l & s1 & -> & Ll & H).
    apply lang_cat_inv in H as (a & s2 & -> & La & H).
    apply lang_cat_inv in H as (d & s3 & -> & Ld & H).
    apply lang_cat_inv in H as (o & t & -> & Lo & Lt).
    apply lang_lit_inv in La, Lo. subst a o.
    apply lang_plus_notlit in Ll, Ld, Lt.
    exists l, d, t. auto.
  - intros (l & d & t & -> & Hl & Hd & Ht).
    apply lang_plus_notlit in Hl, Hd, Ht.
    constructor; [assumption|].
    change ("@" +:+ d +:+ "." +:+ t) with (String "@" EmptyString +:+ d +:+ "." +:+ t).
    constructor; [constructor|].
    constructor; [assumption|].
    change ("." +:+ t) with (String "." EmptyString +:+ t).
    constructor; [constructor | assumption].
Qed.

(** the code's test and the shape named in the specification agree *)
Lemma email_pattern_shape s :
  re_match Bot.email_pattern s = true <-> email_shaped s.
Proof.
  rewrite re_match_spec. unfold email_shaped. split.
  - intros (p & rest & -> & L). apply lang_email_pattern in L as (l & d & t & -> & H).
    exists l, d, t, rest. split; [|exact H].
    now rewrite !append_assoc.
  - intros (l & d & t & rest & -> & H).
    exists (l +:+ "@" +:+ d +:+ "." +:+ t), rest. split.
    + now rewrite !append_assoc.
    + apply lang_email_pattern. exists l, d, t. auto.
Qed.
End EmailFacts.

(** ** The bot *)

Module BotFacts.
Import Bot Spec Invariant.

Lemma dispatch_stage_action a chat tid w :
  dispatch (CallbackQuery chat (action_name a +:+ ":" +:+ tid)) w =
  w_progress chat (action_name a +:+ ":" +:+ tid) w.
Proof.
  unfold dispatch, route, callback_handlers, both, in_state, data_is,
    data_startswith, data_startswith_any, data_in.
  unfold mbind, M_bind, ask, get_state, get_session, mbind, M_bind, mret, M_ret.
  destruct a; cbn -[w_progress]; rewrite ?andb_false_r; reflexivity.
Qed.

Ltac exec_unfold :=
  unfold mbind, M_bind, mret, M_ret, send, save, load, utcnow, ask, raise,
    get_state, set_state, get_data, update_data, clear, get_session, put_session,
    notify_admin.

Ltac exec :=
  repeat (progress (exec_unfold; cbn [fst snd config files storage ticks outbox])).

Ltac exec_in H :=
  repeat (progress (unfold mbind, M_bind, mret, M_ret, send, save, load, utcnow, ask,
                      raise, get_state, set_state, get_data, update_data, clear,
                      get_session, put_session, notify_admin in H;
                    cbn [fst snd config files storage ticks outbox] in H)).

Lemma partition_action a tid :
  PyStr.partition ":" (action_name a +:+ ":" +:+ tid) = (action_name a, ":", tid).
Proof. destruct a; reflexivity. Qed.

Lemma mapping_action a :
  exists body, PyDict.get (action_name a) mapping = Some (body, mapped_status a).
Proof. destruct a; eexists; reflexivity. Qed.




Lemma find_ticket_found (d : pydict string) s i items w :
  PyDict.get "serial" d = Some s ->
  PyDict.get "issue" d = Some i ->
  find_ticket d items w = (inr (option_map fst (find (same_device s i) items)), w).
Proof.
  intros Hs Hi. induction items as [|[k v] items IH]; [reflexivity|].
  cbn [find_ticket find]. unfold getitem, same_device. rewrite Hs. exec.
  cbn [snd]. destruct (field_is (serial v) s); cbn [andb].
  - rewrite Hi. exec. destruct (field_is (issue v) i); [reflexivity | exact IH].
  - exact IH.
Qed.

Lemma session_of_insert chat s c f st t o :
  session_of chat
    {| config := c; files := f; storage := <[chat := s]> st; ticks := t; outbox := o |} = s.
Proof. unfold session_of. cbn [storage]. now rewrite lookup_insert_eq. Qed.

Lemma schedule_keeps_keys (d : pydict string) sched :
  PyDict.get "serial" (PyDict.set "schedule" sched d) = PyDict.get "serial" d /\
  PyDict.get "issue" (PyDict.set "schedule" sched d) = PyDict.get "issue" d.
Proof. split; apply PyDictFacts.get_set_ne; discriminate. Qed.

Lemma route_ind (P : world -> (exn + unit) * world -> Prop) table chat payload w :
  P w (inr tt, w) ->
  (forall f h, In (f, h) table ->
               f (config w) (state (session_of chat w)) payload = true ->
               P w (h chat payload w)) ->
  P w (route table chat payload w).
Proof.
  intros Hnone Hsome. unfold route. exec.
  match goal with
  | |- context [find ?g table] => destruct (find g table) as [[f h]|] eqn:F
  end; [|exact Hnone].
  apply find_some in F as [Hin Hf]. cbn [fst snd] in *. exact (Hsome f h Hin Hf).
Qed.

Ltac each_handler H :=
  unfold message_handlers, callback_handlers in H;
  repeat (apply in_inv in H; destruct H as [H|H]; [injection H as <- <-|]);
  [..|exact (False_ind _ (in_nil H))].

Lemma w_progress_frame chat payload w :
  storage (snd (w_progress chat payload w)) = storage w /\
  orders_json (files (snd (w_progress chat payload w))) = orders_json (files w).
Proof.
  unfold w_progress. destruct (PyStr.partition ":" payload) as [[action sep] tid].
  exec. destruct (PyDict.get tid _); [|split; reflexivity].
  destruct (PyDict.get action mapping) as [[body st]|]; split; reflexivity.
Qed.

Lemma in_state_true st e cur payload :
  in_state st e cur payload = true -> cur = Some st.
Proof. unfold in_state. intros H. now apply bool_decide_eq_true in H. Qed.

Lemma delivery_other_callback chat cb_data w :
  state (session_of chat w) = Some (Buy taking_delivery) ->
  PyStr.startswith "del_" cb_data = false ->
  orders_json (files (step w (CallbackQuery chat cb_data))) = orders_json (files w) /\
  state (session_of chat (step w (CallbackQuery chat cb_data))) <> None.
Proof.
  intros Hst Hpre. unfold step, dispatch.
  assert (Hsome : state (session_of chat w) <> None) by (rewrite Hst; discriminate).
  apply route_ind.
  - cbn [snd]. split; [reflexivity | exact Hsome].
  - intros f h Hin Hf. each_handler Hin.
    + unfold cb_home. exec. split; [reflexivity | exact Hsome].
    + unfold cb_presentation. exec. split; [reflexivity | exact Hsome].
    + unfold cb_contacts. exec. split; [reflexivity | exact Hsome].
    + unfold cb_buy. exec. rewrite session_of_insert. split; [reflexivity | discriminate].
    + unfold both, data_startswith in Hf. rewrite Hpre, andb_false_r in Hf. discriminate.
    + unfold cb_warranty. exec. rewrite session_of_insert. split; [reflexivity | discriminate].
    + unfold both in Hf. apply andb_true_iff in Hf as [Hf _].
      apply in_state_true in Hf. congruence.
    + destruct (w_progress_frame chat cb_data w) as [Hs Ho].
      split; [exact Ho|]. unfold session_of. rewrite Hs. exact Hsome.
Qed.

Lemma del_prefix_first p :
  PyStr.startswith "del_" p = true -> exists rest, p = String "d" rest.
Proof.
  destruct p as [|c rest]; [discriminate|]. cbn [PyStr.startswith].
  intros H. apply andb_true_iff in H as [H _]. apply Ascii.eqb_eq in H. subst c. eauto.
Qed.

Lemma dispatch_delivery chat cb_data w :
  state (session_of chat w) = Some (Buy taking_delivery) ->
  PyStr.startswith "del_" cb_data = true ->
  dispatch (CallbackQuery chat cb_data) w = buy_delivery chat cb_data w.
Proof.
  intros Hst Hpre. destruct (del_prefix_first _ Hpre) as [rest ->].
  unfold dispatch, route. exec. rewrite Hst.
  unfold callback_handlers, both, in_state, data_is, data_startswith.
  cbn [find fst snd]. rewrite Hpre.
  rewrite bool_decide_eq_true_2 by reflexivity.
  reflexivity.
Qed.

Lemma buy_delivery_effect chat cb_data w :
  let d := PyDict.set "delivery" (delivery_choice cb_data) (data (session_of chat w)) in
  let '(res, w') := buy_delivery chat cb_data w in
  exists order_id stamp,
    res = inr tt /\
    fst (next_order_id w) = inr order_id /\
    orders w' = PyDict.set order_id (order_record stamp d) (orders w) /\
    tickets_json (files w') = tickets_json (files w) /\
    session_of chat w' = empty_session.
Proof.
  unfold buy_delivery, next_order_id. exec.
  rewrite !session_of_insert. cbn [data state].
  destruct (String.eqb (ADMIN_CHAT_ID (config w)) EmptyString); exec;
    do 2 eexists; (split; [reflexivity|]); (split; [reflexivity|]);
    (split; [reflexivity|]); (split; [reflexivity|]);
    now rewrite session_of_insert.
Qed.

Lemma delivery_message chat msg_text w :
  state (session_of chat w) = Some (Buy taking_delivery) ->
  files (step w (Message chat msg_text)) = files w /\
  storage (step w (Message chat msg_text)) = storage w.
Proof.
  intros Hst. unfold step, dispatch.
  apply route_ind.
  - split; reflexivity.
  - intros f h Hin Hf. each_handler Hin;
      try (apply in_state_true in Hf; congruence).
    + unfold cmd_start. exec. split; reflexivity.
    + unfold admin_orders. exec. destruct (negb _); [split; reflexivity|].
      exec. destruct (_load ORDERS_DB (files w)); split; reflexivity.
    + unfold admin_tickets. exec. destruct (negb _); [split; reflexivity|].
      exec. destruct (_load TICKETS_DB (files w)); split; reflexivity.
Qed.

Lemma last_stage_event_app h e :
  last_stage_event (h ++ [e]) =
  if stage_event (event e) then Some (event e) else last_stage_event h.
Proof.
  induction h as [|x h IH]; cbn [last_stage_event app].
  - reflexivity.
  - rewrite IH. destruct (stage_event (event e)); reflexivity.
Qed.

Lemma mapping_lookup action body st :
  PyDict.get action mapping = Some (body, st) ->
  exists a, action = action_name a /\ st = mapped_status a.
Proof.
  unfold mapping. cbn [PyDict.get].
  repeat match goal with
  | |- context [String.eqb action ?x] => destruct (String.eqb_spec action x) as [->|_]
  end; intros [= <- <-];
  [exists act_tl_wait | exists act_asc_redirect | exists act_asc_control
  | exists act_repair | exists act_handover | exists act_feedback]; split; reflexivity.
Qed.

Lemma advance_stage_ok a stamp t :
  status (advance {| ts := stamp; event := action_name a |} (mapped_status a) t) =
  expected_status (advance {| ts := stamp; event := action_name a |} (mapped_status a) t).
Proof.
  unfold expected_status, advance. cbn [history status remote_ok].
  rewrite last_stage_event_app. cbn [event]. destruct a; reflexivity.
Qed.

Lemma advance_schedule_ok stamp sched t :
  status (advance {| ts := stamp; event := "remote_scheduled:" +:+ sched |}
            "remote_scheduled" t) =
  expected_status (advance {| ts := stamp; event := "remote_scheduled:" +:+ sched |}
                     "remote_scheduled" t).
Proof.
  unfold expected_status, advance. cbn [history status remote_ok].
  rewrite last_stage_event_app. cbn [event]. reflexivity.
Qed.

Lemma created_ok stamp0 stamp1 stamp2 s i cb_data :
  let t := {| created_at := stamp0; serial := s; issue := i;
              remote_ok := String.eqb cb_data "yes";
              status := if String.eqb cb_data "yes" then "remote_scheduled" else "tl_wait";
              history := [ {| ts := stamp1; event := "created" |};
                           {| ts := stamp2; event := "remote_consent:" +:+ cb_data |} ] |} in
  status t = expected_status t.
Proof. reflexivity. Qed.

Lemma In_set {V} (k0 k : string) (v0 v : V) (d : pydict V) :
  In (k, v) (PyDict.set k0 v0 d) -> (k, v) = (k0, v0) \/ In (k, v) d.
Proof.
  induction d as [|[k1 v1] d IH]; cbn [PyDict.set].
  - intros [H|[]]. left. now symmetry.
  - destruct (String.eqb_spec k0 k1) as [->|Hne].
    + intros [H|H]; [left; now symmetry | right; now right].
    + intros [H|H]; [right; now left|].
      destruct (IH H) as [E|E]; [now left | right; now right].
Qed.

Lemma digits_then_dash_inj d1 d2 n1 n2 :
  PyStr.all_digits d1 = true -> PyStr.all_digits d2 = true ->
  d1 +:+ "-" +:+ n1 = d2 +:+ "-" +:+ n2 -> n1 = n2.
Proof.
  revert d2. induction d1 as [|c d1 IH]; intros [|c2 d2] H1 H2 E; simpl in *.
  - now injection E.
  - injection E as <- _. discriminate.
  - injection E as -> _. discriminate.
  - injection E as -> E.
    apply andb_true_iff in H1 as [_ H1]. apply andb_true_iff in H2 as [_ H2]. eauto.
Qed.

Lemma id_ok_inj i j k : id_ok i k -> id_ok j k -> i = j.
Proof.
  intros (d1 & H1 & E1) (d2 & H2 & E2). subst k. injection E2 as E.
  apply digits_then_dash_inj in E; auto.
  apply PyStrFacts.format_0d_inj in E. lia.
Qed.

(** the identifier made for the next ticket is not yet a key *)
Lemma next_id_fresh (db : pydict ticket) date :
  (forall i k, nth_error (PyDict.keys db) i = Some k -> id_ok i k) ->
  PyStr.all_digits date = true ->
  ~ In ("T" +:+ date +:+ "-" +:+ PyStr.format_0d 4 (length db + 1)) (PyDict.keys db).
Proof.
  intros Hids Hd Hin. apply In_nth_error in Hin as [i Hi].
  assert (Hlt : i < length (PyDict.keys db)) by (apply nth_error_Some; congruence).
  unfold PyDict.keys in Hlt. rewrite length_map in Hlt.
  assert (i = length db); [|lia].
  apply (id_ok_inj _ _ _ (Hids _ _ Hi)). exists date. auto.
Qed.

Lemma grows_refl db : grows db db.
Proof.
  intros k t H. exists t, []. rewrite List.app_nil_r. auto 10.
Qed.

Lemma grows_trans db1 db2 db3 : grows db1 db2 -> grows db2 db3 -> grows db1 db3.
Proof.
  intros H12 H23 k t H.
  destruct (H12 k t H) as (t2 & m2 & G2 & Hh2 & Hc2 & Hs2 & Hi2 & Hr2).
  destruct (H23 k t2 G2) as (t3 & m3 & G3 & Hh3 & Hc3 & Hs3 & Hi3 & Hr3).
  exists t3, (m2 ++ m3)%list. rewrite Hh3, Hh2, List.app_assoc.
  repeat split; congruence.
Qed.

Lemma grows_advance db k t entry st :
  PyDict.get k db = Some t -> grows db (PyDict.set k (advance entry st t) db).
Proof.
  intros Hk k' t' H'. destruct (String.eqb_spec k k') as [->|Hne].
  - rewrite PyDictFacts.get_set_eq. assert (t' = t) by congruence. subst t'.
    exists (advance entry st t), [entry]. auto 10.
  - rewrite PyDictFacts.get_set_ne by assumption.
    exists t', []. rewrite List.app_nil_r. auto 10.
Qed.

Lemma grows_new db k t :
  ~ In k (PyDict.keys db) -> grows db (PyDict.set k t db).
Proof.
  intros Hk k' t' H'. destruct (String.eqb_spec k k') as [->|Hne].
  - exfalso. apply Hk. eapply PyDictFacts.get_Some_keys; eauto.
  - rewrite PyDictFacts.get_set_ne by assumption.
    exists t', []. rewrite List.app_nil_r. auto 10.
Qed.

Lemma store_ok_advance db k t entry st :
  store_ok db -> PyDict.get k db = Some t ->
  status (advance entry st t) = expected_status (advance entry st t) ->
  store_ok (PyDict.set k (advance entry st t) db).
Proof.
  intros [Hids Hok] Hk Hnew. split.
  - rewrite PyDictFacts.keys_set_present; [exact Hids|].
    eapply PyDictFacts.get_Some_keys; eauto.
  - intros k' t' Hin. apply In_set in Hin as [[= -> ->]|Hin]; eauto.
Qed.

Lemma store_ok_new db date t :
  store_ok db -> PyStr.all_digits date = true ->
  status t = expected_status t ->
  store_ok (PyDict.set ("T" +:+ date +:+ "-" +:+ PyStr.format_0d 4 (length db + 1)) t db).
Proof.
  intros [Hids Hok] Hd Hnew.
  pose proof (next_id_fresh db date Hids Hd) as Hfresh. split.
  - rewrite PyDictFacts.set_absent by assumption.
    unfold PyDict.keys. rewrite map_app. cbn [map fst]. fold (PyDict.keys db).
    intros i k Hi.
    destruct (Nat.lt_ge_cases i (length (PyDict.keys db))) as [Hlt|Hge].
    + rewrite nth_error_app1 in Hi by assumption. eauto.
    + rewrite nth_error_app2 in Hi by assumption.
      destruct (i - length (PyDict.keys db)) as [|n] eqn:E; cbn in Hi;
        [|destruct n; discriminate].
      injection Hi as <-. exists date. split; [assumption|].
      unfold PyDict.keys in E, Hge. rewrite length_map in E, Hge.
      replace i with (length db) by lia. reflexivity.
  - intros k' t' Hin. apply In_set in Hin as [[= -> ->]|Hin]; eauto.
Qed.

Lemma keeps_frame w r :
  tickets_json (files (snd r)) = tickets_json (files w) -> keeps w r.
Proof.
  intros H Hok. unfold tickets, _load in *. cbn [read_file TICKETS_DB] in *.
  rewrite H. split; [assumption | apply grows_refl].
Qed.

Lemma find_ticket_pure d items w : snd (find_ticket d items w) = w.
Proof.
  induction items as [|[k v] items IH]; [reflexivity|].
  cbn [find_ticket]. unfold getitem.
  destruct (PyDict.get "serial" d); exec; [|reflexivity].
  destruct (field_is (serial v) s); [|exact IH].
  destruct (PyDict.get "issue" d); exec; [|reflexivity].
  destruct (field_is (issue v) s0); [reflexivity | exact IH].
Qed.

Lemma w_progress_keeps chat payload w : keeps w (w_progress chat payload w).
Proof.
  unfold w_progress. destruct (PyStr.partition ":" payload) as [[action sep] tid].
  exec. fold (tickets w).
  destruct (PyDict.get tid (tickets w)) as [t|] eqn:E;
    [|apply keeps_frame; reflexivity].
  destruct (PyDict.get action mapping) as [[body st]|] eqn:M;
    [|apply keeps_frame; reflexivity].
  apply mapping_lookup in M as (a & -> & ->). exec.
  intros Hok. cbn [snd]. unfold tickets at 1 3.
  cbn [files _load _save read_file write_file TICKETS_DB tickets_json].
  fold (tickets w). split.
  - apply store_ok_advance; auto using advance_stage_ok.
  - now apply grows_advance.
Qed.

Lemma w_remote_tickets chat cb_data w :
  exists stamp0 stamp1 stamp2,
    tickets (snd (w_remote chat cb_data w)) =
    PyDict.set
      ("T" +:+ DateTime.strftime_Ymd (utc_clock (config w) (ticks w)) +:+ "-" +:+
       PyStr.format_0d 4 (length (tickets w) + 1))
      {| created_at := stamp0;
         serial := PyDict.get "serial" (data (session_of chat w));
         issue := PyDict.get "issue" (data (session_of chat w));
         remote_ok := String.eqb cb_data "yes";
         status := if String.eqb cb_data "yes" then "remote_scheduled" else "tl_wait";
         history := [ {| ts := stamp1; event := "created" |};
                      {| ts := stamp2; event := "remote_consent:" +:+ cb_data |} ] |}
      (tickets w).
Proof.
  do 3 eexists. unfold w_remote, next_ticket_id. exec. fold (tickets w).
  destruct (String.eqb (ADMIN_CHAT_ID (config w)) EmptyString); exec;
    destruct (String.eqb cb_data "yes"); exec; reflexivity.
Qed.

Lemma w_remote_keeps chat cb_data w : keeps w (w_remote chat cb_data w).
Proof.
  intros Hok. destruct (w_remote_tickets chat cb_data w) as (s0 & s1 & s2 & ->).
  assert (Hd : PyStr.all_digits
                 (DateTime.strftime_Ymd (utc_clock (config w) (ticks w))) = true).
  { unfold DateTime.strftime_Ymd.
    now rewrite !PyStrFacts.all_digits_app, !PyStrFacts.all_digits_format. }
  split.
  - apply store_ok_new; [assumption | assumption | apply created_ok].
  - apply grows_new, next_id_fresh; [apply Hok | assumption].
Qed.

Lemma w_schedule_remote_keeps chat msg_text w :
  keeps w (w_schedule_remote chat msg_text w).
Proof.
  unfold w_schedule_remote. exec. fold (tickets w).
  match goal with
  | |- context [find_ticket ?d ?items ?w1] =>
      pose proof (find_ticket_pure d items w1) as Hpure;
      destruct (find_ticket d items w1) as [[e|tid] w2]
  end; cbn [snd] in Hpure; subst w2.
  - apply keeps_frame. reflexivity.
  - destruct (truthy tid).
    + destruct (PyDict.get (default EmptyString tid) (tickets w)) as [t|] eqn:E.
      * exec. intros Hok. cbn [snd]. unfold tickets at 1 3.
        cbn [files _load _save read_file write_file TICKETS_DB tickets_json].
        fold (tickets w). split.
        -- apply store_ok_advance; auto using advance_schedule_ok.
        -- now apply grows_advance.
      * exec. apply keeps_frame. reflexivity.
    + exec. apply keeps_frame. reflexivity.
Qed.

Lemma buy_delivery_frame chat cb_data w :
  tickets_json (files (snd (buy_delivery chat cb_data w))) = tickets_json (files w).
Proof.
  unfold buy_delivery, next_order_id. exec.
  destruct (String.eqb (ADMIN_CHAT_ID (config w)) EmptyString); reflexivity.
Qed.

Ltac frame h := apply keeps_frame; unfold h; exec; reflexivity.

(** every handler keeps the ticket store in order and only lets histories
    grow *)
Lemma handlers_keep f h chat payload w :
  In (f, h) message_handlers \/ In (f, h) callback_handlers ->
  keeps w (h chat payload w).
Proof.
  intros [Hin|Hin]; each_handler Hin.
  - frame cmd_start.
  - frame buy_name.
  - apply keeps_frame. unfold buy_email. destruct (negb _); exec; reflexivity.
  - frame buy_phone.
  - frame buy_city.
  - frame buy_address.
  - frame w_serial.
  - frame w_issue.
  - apply w_schedule_remote_keeps.
  - apply keeps_frame. unfold admin_orders. exec. destruct (negb _); [reflexivity|].
    exec. destruct (_load ORDERS_DB (files w)); reflexivity.
  - apply keeps_frame. unfold admin_tickets. exec. destruct (negb _); [reflexivity|].
    exec. destruct (_load TICKETS_DB (files w)); reflexivity.
  - frame cb_home.
  - frame cb_presentation.
  - frame cb_contacts.
  - frame cb_buy.
  - apply keeps_frame, buy_delivery_frame.
  - frame cb_warranty.
  - apply w_remote_keeps.
  - apply w_progress_keeps.
Qed.

Lemma step_keeps w u : keeps w (dispatch u w).
Proof.
  destruct u as [chat msg_text|chat cb_data]; unfold dispatch; apply route_ind.
  - apply keeps_frame. reflexivity.
  - intros f h Hin _. apply (handlers_keep f). now left.
  - apply keeps_frame. reflexivity.
  - intros f h Hin _. apply (handlers_keep f). now right.
Qed.

Lemma run_snoc w us u : run w (us ++ [u]) = step (run w us) u.
Proof. unfold run. now rewrite fold_left_app. Qed.

Lemma run_keeps w us :
  store_ok (tickets w) ->
  store_ok (tickets (run w us)) /\ grows (tickets w) (tickets (run w us)).
Proof.
  revert w. induction us as [|u us IH]; intros w Hok.
  - split; [assumption | apply grows_refl].
  - cbn [run fold_left]. fold (run (step w u) us).
    destruct (step_keeps w u Hok) as [Hok1 Hg1]. fold (step w u) in Hok1, Hg1.
    destruct (IH _ Hok1) as [Hok2 Hg2].
    split; [assumption | eapply grows_trans; eassumption].
Qed.

Lemma boot_ok e : store_ok (tickets (boot e)).
Proof. split; [intros [|i] k H; discriminate | intros k t []]. Qed.

End BotFacts.

(** * The claims *)

Import Bot Spec Invariant BotFacts.

(** C1.  Each of the six stage actions, pressed for a ticket id: when the
    ticket exists, the handler finishes, appends exactly one history entry
    named after the action to that ticket and writes the status of the
    table (feedback writes closed), whatever the status was before; when it
    does not exist, nothing on disk changes and the caller is told
    "Тикет не найден".  Sessions and orders are untouched either way. *)
Theorem stage_action_effect (a : stage_action) (chat : Z) (tid : string) (w : world) :
  let '(res, w') := dispatch (CallbackQuery chat (action_name a +:+ ":" +:+ tid)) w in
  res = inr tt /\
  storage w' = storage w /\
  orders w' = orders w /\
  (match PyDict.get tid (tickets w) with
   | Some t =>
       exists stamp,
         let t' :=
           {| created_at := created_at t; serial := serial t; issue := issue t;
              remote_ok := remote_ok t; status := mapped_status a;
              history := history t ++ [ {| ts := stamp; event := action_name a |} ] |} in
         tickets w' = PyDict.set tid t' (tickets w) /\
         PyDict.get tid (tickets w') = Some t' /\
         length (history t') = S (length (history t))
   | None =>
       files w' = files w /\
       outbox w' = (outbox w ++ [CallbackAnswer chat (Some "Тикет не найден") true])%list
   end).
Proof.
  rewrite dispatch_stage_action. unfold w_progress.
  rewrite partition_action. unfold mbind at 1, M_bind at 1, load. fold (tickets w).
  destruct (PyDict.get tid (tickets w)) as [t|] eqn:E.
  - destruct (mapping_action a) as [body ->]. exec.
    split; [reflexivity|]. split; [reflexivity|]. split; [reflexivity|].
    eexists. split; [reflexivity|]. split.
    + apply PyDictFacts.get_set_eq.
    + cbn [history]. rewrite List.length_app. simpl. lia.
  - exec. auto.
Qed.

(** C2, as the code has it.  Along every run from a fresh start, a later
    store keeps every ticket of an earlier one with its creation data and
    with a history that only grew at its end; and every stored ticket shows
    the status that its most recent stage-transition event stands for
    (closed for feedback, remote_scheduled for remote_scheduled:<text>, the
    event's own name for the other five actions), or, before any such
    event, the status given at creation. *)
Theorem ticket_history_invariant (e : env) (before after : list update) :
  let w := run (boot e) before in
  let w' := run w after in
  grows (tickets w) (tickets w') /\
  (forall k t, PyDict.get k (tickets w') = Some t -> status t = expected_status t).
Proof.
  cbv zeta.
  destruct (run_keeps (boot e) before (boot_ok e)) as [Hok _].
  destruct (run_keeps _ after Hok) as [[_ Hok'] Hg].
  split; [exact Hg|].
  intros k t H. apply (Hok' k). now apply PyDictFacts.get_Some_In.
Qed.

(** C2, as stated, fails: after the feedback action the most recent
    stage-transition event is named feedback while the status is closed. *)
Lemma status_differs_from_event_name :
  let w := run (boot Demo.env)
             (Demo.warranty "no" ++ [CallbackQuery 7 "feedback:T20240307-0001"]) in
  exists t,
    PyDict.get "T20240307-0001" (tickets w) = Some t /\
    last_stage_event (history t) = Some "feedback" /\
    status t = "closed" /\
    ~ status_is_last_event_name t.
Proof.
  cbv zeta. eexists. split; [vm_compute; reflexivity|].
  split; [vm_compute; reflexivity|]. split; [reflexivity|].
  intros H. specialize (H "feedback" eq_refl). discriminate.
Qed.

(** C3.  Answering the remote-consent question creates the ticket under the
    next identifier: [remote_ok] is the consent given, the status is
    remote_scheduled for yes and tl_wait for no, and the history holds
    exactly the two events created and remote_consent:<answer>, in that
    order.  Serial and issue are taken from the session; the conversation
    moves on to schedule_remote for yes and to tl_wait for no. *)
Theorem ticket_creation (chat : Z) (consent : bool) (w : world) :
  let answer := if consent then "yes" else "no" in
  let d := data (session_of chat w) in
  let '(res, w') := w_remote chat answer w in
  exists tid stamp0 stamp1 stamp2,
    let t :=
      {| created_at := stamp0;
         serial := PyDict.get "serial" d;
         issue := PyDict.get "issue" d;
         remote_ok := consent;
         status := if consent then "remote_scheduled" else "tl_wait";
         history := [ {| ts := stamp1; event := "created" |};
                      {| ts := stamp2; event := "remote_consent:" +:+ answer |} ] |} in
    res = inr tt /\
    fst (next_ticket_id w) = inr tid /\
    tickets w' = PyDict.set tid t (tickets w) /\
    PyDict.get tid (tickets w') = Some t /\
    orders w' = orders w /\
    state (session_of chat w') =
      Some (Warranty (if consent then schedule_remote else tl_wait)).
Proof.
  destruct (fst (next_ticket_id w)) as [e|tid] eqn:Etid.
  { unfold next_ticket_id in Etid. exec_in Etid. discriminate. }
  unfold next_ticket_id in Etid. exec_in Etid. injection Etid as <-.
  destruct consent; unfold w_remote, next_ticket_id; exec;
    [change (String.eqb "yes" "yes") with true
    |change (String.eqb "no" "yes") with false];
    destruct (String.eqb (ADMIN_CHAT_ID (config w)) EmptyString); exec;
    do 4 eexists;
    (split; [reflexivity|]); (split; [reflexivity|]); (split; [reflexivity|]);
    (split; [apply PyDictFacts.get_set_eq|]); (split; [reflexivity|]);
    unfold session_of; cbn [storage]; now rewrite lookup_insert_eq.
Qed.

(** C4.  The e-mail step.  The trimmed input is tested with the pattern;
    the test succeeds exactly for texts that start with
    local@domain.tld-shaped text.  When it fails the handler only sends the
    prompt again: the session (state and data) and the disk are as before.
    When it succeeds the trimmed text is stored under email and the state
    becomes taking_phone.  "a@b.co" is accepted and "not-an-email" is
    rejected. *)
Theorem email_step (chat : Z) (msg_text : string) (w : world) :
  let email := PyStr.strip msg_text in
  let '(res, w') := buy_email chat msg_text w in
  res = inr tt /\
  files w' = files w /\
  (Re.re_match email_pattern email = true <-> email_shaped email) /\
  (if Re.re_match email_pattern email
   then session_of chat w' =
          {| state := Some (Buy taking_phone);
             data := PyDict.set "email" email (data (session_of chat w)) |}
   else storage w' = storage w /\
        outbox w' =
          (outbox w ++
           [Answer chat "Похоже, это не похоже на email. Попробуйте ещё раз:" None])%list) /\
  Re.re_match email_pattern (PyStr.strip "a@b.co") = true /\
  Re.re_match email_pattern (PyStr.strip "not-an-email") = false.
Proof.
  unfold buy_email.
  pose proof (EmailFacts.email_pattern_shape (PyStr.strip msg_text)) as Hshape.
  destruct (Re.re_match email_pattern (PyStr.strip msg_text)) eqn:E;
    cbn [negb]; exec.
  - split; [reflexivity|]. split; [reflexivity|].
    split; [exact Hshape|].
    split; [|split; vm_compute; reflexivity].
    unfold session_of; cbn [storage]. rewrite lookup_insert_eq. cbn.
    rewrite lookup_insert_eq. reflexivity.
  - split; [reflexivity|]. split; [reflexivity|].
    split; [exact Hshape|].
    split; [split; reflexivity|split; vm_compute; reflexivity].
Qed.

(** C5, as the code has it.  For a chat in taking_delivery the step is
    completed by any pressed button whose data starts with del_: the three
    fixed options store their labels, any other such data is stored as
    Стандартная; the order is persisted and the session cleared.  Every
    other button and every message persists no order and leaves the session
    in a state. *)
Theorem delivery_step (chat : Z) (w : world) :
  state (session_of chat w) = Some (Buy taking_delivery) ->
  delivery_contract chat w.
Proof.
  intros Hst. unfold delivery_contract.
  split; [|split; [|split; [|split; [|split; [|split]]]]]; try reflexivity.
  - intros cb_data Hpre. rewrite dispatch_delivery by assumption.
    pose proof (buy_delivery_effect chat cb_data w) as H. cbv zeta in H.
    destruct (buy_delivery chat cb_data w) as [res w'].
    destruct H as (oid & stamp & H1 & _ & H2 & _ & H3). eauto.
  - intros cb_data Hpre. now apply delivery_other_callback.
  - intros msg_text. cbv zeta.
    destruct (delivery_message chat msg_text w Hst) as [Hf Hs].
    split; [exact Hf|]. unfold session_of. now rewrite Hs.
  - intros cb_data Hnot. unfold delivery_choice, delivery_options. cbn [PyDict.get].
    destruct (String.eqb_spec cb_data "del_standard") as [->|_];
      [exfalso; apply Hnot; cbn; tauto|].
    destruct (String.eqb_spec cb_data "del_express") as [->|_];
      [exfalso; apply Hnot; cbn; tauto|].
    destruct (String.eqb_spec cb_data "del_pickup") as [->|_];
      [exfalso; apply Hnot; cbn; tauto|].
    reflexivity.
Qed.

Lemma delivery_step_witness :
  let w := run (boot Demo.env) Demo.buy_questions in
  state (session_of 7 w) = Some (Buy taking_delivery) /\ delivery_contract 7 w.
Proof.
  cbv zeta.
  assert (H : state (session_of 7 (run (boot Demo.env) Demo.buy_questions))
              = Some (Buy taking_delivery)) by (vm_compute; reflexivity).
  split; [exact H | exact (delivery_step 7 _ H)].
Defined.

(** C5, as stated, fails: in taking_delivery the button data del_foo is none
    of the three options, and yet the order is persisted (as standard
    delivery) and the session is cleared. *)
Lemma delivery_accepts_other_data :
  let w := run (boot Demo.env) Demo.buy_questions in
  let w' := step w (CallbackQuery 7 "del_foo") in
  state (session_of 7 w) = Some (Buy taking_delivery) /\
  ~ In "del_foo" fixed_delivery_options /\
  orders w = [] /\
  (exists record,
      orders w' = [("O20240307-0001", record)] /\
      PyDict.get "delivery" record = Some (JStr "Стандартная")) /\
  session_of 7 w' = empty_session.
Proof.
  cbv zeta. split; [vm_compute; reflexivity|].
  split; [cbn; intros [H|[H|[H|[]]]]; discriminate|].
  split; [vm_compute; reflexivity|].
  split; [eexists; split; vm_compute; reflexivity|].
  vm_compute. reflexivity.
Qed.



(** C8 at the failing input: a customer who opened a ticket and then
    completes an order gets an order record that also holds the ticket's
    serial and issue. *)
Example order_record_holds_ticket_fields :
  let w := run (boot Demo.env)
             (Demo.warranty "no" ++ Demo.buy_questions ++ [CallbackQuery 7 "del_express"]) in
  exists record,
    orders w = [("O20240307-0001", record)] /\
    PyDict.keys record =
      ["created_at"; "product"; "price"; "serial"; "issue";
       "name"; "email"; "phone"; "city"; "address"; "delivery"] /\
    PyDict.get "serial" record = Some (JStr "SN-01") /\
    PyDict.get "issue" record = Some (JStr "screen flicker") /\
    session_of 7 w = empty_session.
Proof.
  cbv zeta. eexists. split; [vm_compute; reflexivity|].
  repeat split; vm_compute; reflexivity.
Qed.



(** C10.  A schedule_remote message when no stored ticket has the session's
    serial and issue: nothing on disk changes (no save happens), the
    conversation still moves to tl_wait, and the reply carries the stage
    keyboard built for the placeholder id unknown. *)
Theorem remote_schedule_not_found (chat : Z) (msg_text s i : string) (w : world) :
  PyDict.get "serial" (data (session_of chat w)) = Some s ->
  PyDict.get "issue" (data (session_of chat w)) = Some i ->
  (forall k t, In (k, t) (tickets w) -> same_device s i (k, t) = false) ->
  let '(res, w') := w_schedule_remote chat msg_text w in
  res = inr tt /\
  files w' = files w /\
  session_of chat w' =
    {| state := Some (Warranty tl_wait);
       data := PyDict.set "schedule" (PyStr.strip msg_text) (data (session_of chat w)) |} /\
  outbox w' =
    (outbox w ++
     [Answer chat
        "Инженер свяжется в указанный слот. Если проблема сохранится — эскалируем к ТЛ (3–5 рабочих дней)."
        (Some (warranty_progress_kb "unknown"))])%list /\
  map callback_data (concat (warranty_progress_kb "unknown")) =
    ["tl_wait:unknown"; "asc_redirect:unknown"; "asc_control:unknown";
     "repair:unknown"; "handover:unknown"; "feedback:unknown"; "menu_home"].
Proof.
  intros Hs Hi Hnone.
  unfold w_schedule_remote. exec.
  destruct (schedule_keeps_keys (data (session_of chat w)) (PyStr.strip msg_text)) as [Ks Ki].
  rewrite !session_of_insert. cbn [data state].
  rewrite (find_ticket_found _ s i) by congruence.
  fold (tickets w).
  assert (F : find (same_device s i) (PySort.sorted by_created_at true (tickets w)) = None).
  { apply PySortFacts.find_none_sorted. intros [k t]. apply Hnone. }
  rewrite F. cbn [option_map truthy]. exec.
  rewrite !session_of_insert. cbn [data state].
  split; [reflexivity|]. split; [reflexivity|]. split; [reflexivity|].
  split; reflexivity.
Qed.

Lemma remote_schedule_not_found_witness :
  let w := run (boot Demo.env)
             (Demo.warranty "yes" ++
              [ CallbackQuery 8 "menu_warranty"; Message 8 "sn-02"; Message 8 "no sound" ]) in
  let '(res, w') := w_schedule_remote 8 "friday" w in
  res = inr tt /\
  files w' = files w /\
  session_of 8 w' =
    {| state := Some (Warranty tl_wait);
       data := PyDict.set "schedule" (PyStr.strip "friday") (data (session_of 8 w)) |} /\
  outbox w' =
    (outbox w ++
     [Answer 8
        "Инженер свяжется в указанный слот. Если проблема сохранится — эскалируем к ТЛ (3–5 рабочих дней)."
        (Some (warranty_progress_kb "unknown"))])%list /\
  map callback_data (concat (warranty_progress_kb "unknown")) =
    ["tl_wait:unknown"; "asc_redirect:unknown"; "asc_control:unknown";
     "repair:unknown"; "handover:unknown"; "feedback:unknown"; "menu_home"].
Proof.
  cbv zeta.
  apply (remote_schedule_not_found 8 "friday" "SN-02" "no sound").
  - vm_compute. reflexivity.
  - vm_compute. reflexivity.
  - intros k t H. vm_compute in H. destruct H as [H|[]].
    injection H as <- <-. vm_compute. reflexivity.
Defined.

(** * Further properties *)

Import Flows.

(** ** Routing *)

Lemma dispatch_message chat msg_text w st h :
  state (session_of chat w) = Some st ->
  is_command (config w) "start" msg_text = false ->
  In (st, h)
    [ (Buy taking_name, buy_name); (Buy taking_email, buy_email);
      (Buy taking_phone, buy_phone); (Buy taking_city, buy_city);
      (Buy taking_address, buy_address); (Warranty taking_serial, w_serial);
      (Warranty taking_issue, w_issue); (Warranty schedule_remote, w_schedule_remote) ] ->
  dispatch (Message chat msg_text) w = h chat msg_text w.
Proof.
  intros Hst Hcmd Hin. unfold dispatch, route. exec. rewrite Hst.
  unfold message_handlers, command, in_state. cbn [find fst snd]. rewrite Hcmd.
  cbn [In] in Hin.
  repeat (destruct Hin as [Hin|Hin];
          [injection Hin as <- <-;
           repeat (rewrite bool_decide_eq_false_2 by discriminate);
           rewrite bool_decide_eq_true_2 by reflexivity; reflexivity|]).
  destruct Hin.
Qed.

Lemma dispatch_menu_buy chat w :
  dispatch (CallbackQuery chat "menu_buy") w = cb_buy chat "menu_buy" w.
Proof. unfold dispatch, route. exec. reflexivity. Qed.

Lemma dispatch_menu_warranty chat w :
  dispatch (CallbackQuery chat "menu_warranty") w = cb_warranty chat "menu_warranty" w.
Proof.
  unfold dispatch, route. exec.
  unfold callback_handlers, both, in_state, data_is, data_startswith.
  cbn [find fst snd].
  change (String.eqb "menu_warranty" "menu_home") with false.
  change (String.eqb "menu_warranty" "menu_presentation") with false.
  change (String.eqb "menu_warranty" "menu_contacts") with false.
  change (String.eqb "menu_warranty" "menu_buy") with false.
  change (PyStr.startswith "del_" "menu_warranty") with false.
  rewrite andb_false_r. reflexivity.
Qed.

Lemma step_text chat msg_text w st h key next :
  state (session_of chat w) = Some st ->
  is_command (config w) "start" msg_text = false ->
  In (st, h, key, next)
    [ (Buy taking_name, buy_name, "name", Buy taking_email);
      (Buy taking_phone, buy_phone, "phone", Buy taking_city);
      (Buy taking_city, buy_city, "city", Buy taking_address);
      (Buy taking_address, buy_address, "address", Buy taking_delivery);
      (Warranty taking_issue, w_issue, "issue", Warranty ask_remote) ] ->
  stored chat key (PyStr.strip msg_text) next w (step w (Message chat msg_text)).
Proof.
  intros Hst Hcmd Hin. unfold step.
  rewrite (dispatch_message chat msg_text w st h Hst Hcmd).
  2:{ cbn [In] in Hin |- *.
      repeat (destruct Hin as [Hin|Hin]; [injection Hin as <- <- _ _; tauto|]).
      destruct Hin. }
  cbn [In] in Hin.
  repeat (destruct Hin as [Hin|Hin];
          [injection Hin as <- <- <- <-|]); [..|destruct Hin];
    unfold stored, moved, buy_name, buy_phone, buy_city, buy_address, w_issue; exec;
    rewrite !session_of_insert; cbn [state data]; auto.
Qed.

Lemma step_email chat msg_text w :
  state (session_of chat w) = Some (Buy taking_email) ->
  is_command (config w) "start" msg_text = false ->
  Re.re_match email_pattern (PyStr.strip msg_text) = true ->
  stored chat "email" (PyStr.strip msg_text) (Buy taking_phone) w
    (step w (Message chat msg_text)).
Proof.
  intros Hst Hcmd Hre. unfold step.
  rewrite (dispatch_message chat msg_text w _ buy_email Hst Hcmd) by (cbn; tauto).
  unfold stored, moved, buy_email. rewrite Hre. cbn [negb]. exec.
  rewrite !session_of_insert. cbn [state data]. auto.
Qed.

Lemma step_menu_buy chat w :
  moved chat {| state := Some (Buy taking_name); data := data (session_of chat w) |}
    w (step w (CallbackQuery chat "menu_buy")).
Proof.
  unfold step, moved. rewrite dispatch_menu_buy. unfold cb_buy. exec.
  rewrite session_of_insert. auto.
Qed.

Lemma next_order_id_same w1 w2 :
  config w1 = config w2 -> files w1 = files w2 -> ticks w1 = ticks w2 ->
  fst (next_order_id w1) = fst (next_order_id w2).
Proof. intros Hc Hf Ht. unfold next_order_id. exec. now rewrite Hc, Hf, Ht. Qed.

Lemma next_ticket_id_same w1 w2 :
  config w1 = config w2 -> files w1 = files w2 -> ticks w1 = ticks w2 ->
  fst (next_ticket_id w1) = fst (next_ticket_id w2).
Proof. intros Hc Hf Ht. unfold next_ticket_id. exec. now rewrite Hc, Hf, Ht. Qed.

Lemma order_record_of_answers stamp n e p c a d :
  order_record stamp
    (PyDict.set "delivery" d
       (PyDict.set "address" a
          (PyDict.set "city" c
             (PyDict.set "phone" p
                (PyDict.set "email" e (PyDict.set "name" n [])))))) =
  [ ("created_at", JStr stamp); ("product", JStr PRODUCT_name);
    ("price", JInt PRODUCT_price); ("name", JStr n); ("email", JStr e);
    ("phone", JStr p); ("city", JStr c); ("address", JStr a); ("delivery", JStr d) ].
Proof. reflexivity. Qed.

Lemma tickets_same_file w1 w2 :
  tickets_json (files w1) = tickets_json (files w2) -> tickets w1 = tickets w2.
Proof.
  intros H. unfold tickets, _load. cbn [read_file TICKETS_DB]. now rewrite H.
Qed.

Lemma orders_same_file w1 w2 :
  orders_json (files w1) = orders_json (files w2) -> orders w1 = orders w2.
Proof.
  intros H. unfold orders, _load. cbn [read_file ORDERS_DB]. now rewrite H.
Qed.

(** X1.  An order flow that starts on a session without data: the menu
    button, five answers none of which is the start command, an e-mail
    address that passes the test, and a delivery button.  The orders file
    gains one record under the next order id, holding exactly created_at,
    product, price and the six collected fields, in that order, with the
    answers trimmed; tickets are untouched and the session ends empty. *)
Theorem order_flow_record (chat : Z) (name email phone city address choice : string)
    (w : world) :
  data (session_of chat w) = [] ->
  forallb (fun body => negb (is_command (config w) "start" body))
    [name; email; phone; city; address] = true ->
  Re.re_match email_pattern (PyStr.strip email) = true ->
  PyStr.startswith "del_" choice = true ->
  let w' := run w (order_flow chat name email phone city address choice) in
  exists order_id stamp,
    fst (next_order_id w) = inr order_id /\
    orders w' =
      PyDict.set order_id
        [ ("created_at", JStr stamp);
          ("product", JStr PRODUCT_name);
          ("price", JInt PRODUCT_price);
          ("name", JStr (PyStr.strip name));
          ("email", JStr (PyStr.strip email));
          ("phone", JStr (PyStr.strip phone));
          ("city", JStr (PyStr.strip city));
          ("address", JStr (PyStr.strip address));
          ("delivery", JStr (delivery_choice choice)) ]
        (orders w) /\
    tickets w' = tickets w /\
    session_of chat w' = empty_session.
Proof.
  intros Hdata Hcmd Hre Hdel. cbv zeta.
  cbn [forallb] in Hcmd. rewrite !andb_true_iff, !negb_true_iff in Hcmd.
  destruct Hcmd as (C1 & C2 & C3 & C4 & C5 & _).
  unfold order_flow, run. cbn [fold_left].
  pose proof (step_menu_buy chat w) as M0.
  set (w0 := step w (CallbackQuery chat "menu_buy")) in *.
  destruct M0 as (K0 & F0 & T0 & S0).
  assert (M1 : stored chat "name" (PyStr.strip name) (Buy taking_email) w0
                 (step w0 (Message chat name))).
  { apply (step_text chat name w0 (Buy taking_name) buy_name);
      [now rewrite S0 | now rewrite K0 | cbn; tauto]. }
  set (w1 := step w0 (Message chat name)) in *.
  unfold stored, moved in M1. destruct M1 as (K1 & F1 & T1 & S1).
  assert (M2 : stored chat "email" (PyStr.strip email) (Buy taking_phone) w1
                 (step w1 (Message chat email))).
  { apply step_email; [now rewrite S1 | now rewrite K1, K0 | assumption]. }
  set (w2 := step w1 (Message chat email)) in *.
  unfold stored, moved in M2. destruct M2 as (K2 & F2 & T2 & S2).
  assert (M3 : stored chat "phone" (PyStr.strip phone) (Buy taking_city) w2
                 (step w2 (Message chat phone))).
  { apply (step_text chat phone w2 (Buy taking_phone) buy_phone);
      [now rewrite S2 | now rewrite K2, K1, K0 | cbn; tauto]. }
  set (w3 := step w2 (Message chat phone)) in *.
  unfold stored, moved in M3. destruct M3 as (K3 & F3 & T3 & S3).
  assert (M4 : stored chat "city" (PyStr.strip city) (Buy taking_address) w3
                 (step w3 (Message chat city))).
  { apply (step_text chat city w3 (Buy taking_city) buy_city);
      [now rewrite S3 | now rewrite K3, K2, K1, K0 | cbn; tauto]. }
  set (w4 := step w3 (Message chat city)) in *.
  unfold stored, moved in M4. destruct M4 as (K4 & F4 & T4 & S4).
  assert (M5 : stored chat "address" (PyStr.strip address) (Buy taking_delivery) w4
                 (step w4 (Message chat address))).
  { apply (step_text chat address w4 (Buy taking_address) buy_address);
      [now rewrite S4 | now rewrite K4, K3, K2, K1, K0 | cbn; tauto]. }
  set (w5 := step w4 (Message chat address)) in *.
  unfold stored, moved in M5. destruct M5 as (K5 & F5 & T5 & S5).
  assert (E6 : step w5 (CallbackQuery chat choice) = snd (buy_delivery chat choice w5)).
  { unfold step. rewrite dispatch_delivery; [reflexivity | now rewrite S5 | assumption]. }
  rewrite E6. clear E6.
  pose proof (buy_delivery_effect chat choice w5) as H. cbv zeta in H.
  destruct (buy_delivery chat choice w5) as [res w6].
  destruct H as (oid & stamp & _ & Hid & Ho & Ht & Hs). cbn [snd].
  assert (Hfiles : files w5 = files w) by congruence.
  exists oid, stamp. split; [|split; [|split]].
  - rewrite <- Hid. symmetry. apply next_order_id_same; congruence.
  - rewrite Ho, S5, S4, S3, S2, S1, S0, Hdata. cbn [data].
    rewrite order_record_of_answers. f_equal.
    apply orders_same_file. now rewrite Hfiles.
  - apply tickets_same_file. now rewrite Ht, Hfiles.
  - exact Hs.
Qed.

Lemma order_flow_record_witness :
  let w := run (boot Demo.env)
             (order_flow 7 "Ann Lee" "a@b.co" "+27 10 555 0123" "Cape Town"
                "1 Long Street, 8001" "del_standard") in
  let w' := run w (order_flow 7 " Bo Diallo " "bo@osio.example" "+27 21 555 0199"
                     "Durban" "5 Marine Parade" "del_pickup") in
  exists order_id stamp,
    fst (next_order_id w) = inr order_id /\
    orders w' =
      PyDict.set order_id
        [ ("created_at", JStr stamp);
          ("product", JStr PRODUCT_name);
          ("price", JInt PRODUCT_price);
          ("name", JStr (PyStr.strip " Bo Diallo "));
          ("email", JStr (PyStr.strip "bo@osio.example"));
          ("phone", JStr (PyStr.strip "+27 21 555 0199"));
          ("city", JStr (PyStr.strip "Durban"));
          ("address", JStr (PyStr.strip "5 Marine Parade"));
          ("delivery", JStr (delivery_choice "del_pickup")) ]
        (orders w) /\
    tickets w' = tickets w /\
    session_of 7 w' = empty_session.
Proof.
  cbv zeta.
  apply (order_flow_record 7 " Bo Diallo " "bo@osio.example" "+27 21 555 0199"
           "Durban" "5 Marine Parade" "del_pickup");
    vm_compute; reflexivity.
Defined.

(** ** The warranty flow *)

Lemma step_menu_warranty chat w :
  moved chat {| state := Some (Warranty taking_serial); data := data (session_of chat w) |}
    w (step w (CallbackQuery chat "menu_warranty")).
Proof.
  unfold step, moved. rewrite dispatch_menu_warranty. unfold cb_warranty. exec.
  rewrite session_of_insert. auto.
Qed.

Lemma step_serial chat msg_text w :
  state (session_of chat w) = Some (Warranty taking_serial) ->
  is_command (config w) "start" msg_text = false ->
  stored chat "serial" (PyStr.remove_whitespace (str_upper (config w) msg_text))
    (Warranty taking_issue) w (step w (Message chat msg_text)).
Proof.
  intros Hst Hcmd. unfold step.
  rewrite (dispatch_message chat msg_text w _ w_serial Hst Hcmd) by (cbn; tauto).
  unfold stored, moved, w_serial. exec.
  rewrite !session_of_insert. cbn [state data]. auto.
Qed.

Lemma dispatch_consent chat consent w :
  state (session_of chat w) = Some (Warranty ask_remote) ->
  In consent ["yes"; "no"] ->
  dispatch (CallbackQuery chat consent) w = w_remote chat consent w.
Proof.
  intros Hst [<-|[<-|[]]]; unfold dispatch, route; exec; rewrite Hst;
    unfold callback_handlers, both, in_state, data_is, data_startswith, data_in;
    cbn [find fst snd existsb];
    rewrite bool_decide_eq_false_2 by discriminate;
    rewrite bool_decide_eq_true_2 by reflexivity; reflexivity.
Qed.

Lemma w_remote_session chat cb_data w :
  fst (w_remote chat cb_data w) = inr tt /\
  orders_json (files (snd (w_remote chat cb_data w))) = orders_json (files w) /\
  session_of chat (snd (w_remote chat cb_data w)) =
    {| state := Some (Warranty (if String.eqb cb_data "yes"
                                then schedule_remote else tl_wait));
       data := data (session_of chat w) |}.
Proof.
  unfold w_remote, next_ticket_id. exec.
  destruct (String.eqb (ADMIN_CHAT_ID (config w)) EmptyString); exec;
    destruct (String.eqb cb_data "yes"); exec;
    rewrite session_of_insert; auto.
Qed.

(** X2.  A warranty flow: the menu button, a serial and an issue neither of
    which is the start command, and the answer yes or no.  Whatever the
    session held before, one ticket is stored under the next ticket id with
    the serial in upper case and stripped of all whitespace, the issue
    trimmed, the consent, the initial status and the two opening history
    events; orders are untouched and the conversation is in schedule_remote
    after yes and in tl_wait after no. *)
Theorem warranty_flow_ticket (chat : Z) (serial_text issue_text consent : string)
    (w : world) :
  is_command (config w) "start" serial_text = false ->
  is_command (config w) "start" issue_text = false ->
  In consent ["yes"; "no"] ->
  let w' := run w (warranty_flow chat serial_text issue_text consent) in
  exists ticket_id stamp0 stamp1 stamp2,
    fst (next_ticket_id w) = inr ticket_id /\
    tickets w' =
      PyDict.set ticket_id
        {| created_at := stamp0;
           serial := Some (PyStr.remove_whitespace (str_upper (config w) serial_text));
           issue := Some (PyStr.strip issue_text);
           remote_ok := String.eqb consent "yes";
           status := if String.eqb consent "yes" then "remote_scheduled" else "tl_wait";
           history := [ {| ts := stamp1; event := "created" |};
                        {| ts := stamp2; event := "remote_consent:" +:+ consent |} ] |}
        (tickets w) /\
    orders w' = orders w /\
    state (session_of chat w') =
      Some (Warranty (if String.eqb consent "yes" then schedule_remote else tl_wait)).
Proof.
  intros C1 C2 Hconsent. cbv zeta.
  unfold warranty_flow, run. cbn [fold_left].
  pose proof (step_menu_warranty chat w) as M0.
  set (w0 := step w (CallbackQuery chat "menu_warranty")) in *.
  destruct M0 as (K0 & F0 & T0 & S0).
  assert (M1 : stored chat "serial"
                 (PyStr.remove_whitespace (str_upper (config w0) serial_text))
                 (Warranty taking_issue) w0 (step w0 (Message chat serial_text))).
  { apply step_serial; [now rewrite S0 | now rewrite K0]. }
  set (w1 := step w0 (Message chat serial_text)) in *.
  destruct M1 as (K1 & F1 & T1 & S1).
  assert (M2 : stored chat "issue" (PyStr.strip issue_text) (Warranty ask_remote) w1
                 (step w1 (Message chat issue_text))).
  { apply (step_text chat issue_text w1 (Warranty taking_issue) w_issue);
      [now rewrite S1 | now rewrite K1, K0 | cbn; tauto]. }
  set (w2 := step w1 (Message chat issue_text)) in *.
  destruct M2 as (K2 & F2 & T2 & S2).
  assert (E3 : step w2 (CallbackQuery chat consent) = snd (w_remote chat consent w2)).
  { unfold step. rewrite dispatch_consent; [reflexivity | now rewrite S2 | assumption]. }
  rewrite E3. clear E3.
  destruct (w_remote_tickets chat consent w2) as (s0 & s1 & s2 & Ht).
  destruct (w_remote_session chat consent w2) as (_ & Ho & Hs).
  assert (Hfiles : files w2 = files w) by congruence.
  assert (Hconfig : config w2 = config w) by congruence.
  assert (Hticks : ticks w2 = ticks w) by congruence.
  exists ("T" +:+ DateTime.strftime_Ymd (utc_clock (config w2) (ticks w2)) +:+ "-" +:+
          PyStr.format_0d 4 (length (tickets w2) + 1)), s0, s1, s2.
  split; [|split; [|split]].
  - unfold next_ticket_id, tickets. exec. now rewrite Hfiles, Hconfig, Hticks.
  - rewrite Ht, S2, S1. cbn [data].
    rewrite PyDictFacts.get_set_ne by discriminate.
    rewrite !PyDictFacts.get_set_eq. rewrite K0.
    f_equal. apply tickets_same_file. now rewrite Hfiles.
  - apply orders_same_file. now rewrite Ho, Hfiles.
  - now rewrite Hs.
Qed.

Lemma warranty_flow_ticket_witness :
  let w := run (boot Demo.env) (Demo.warranty "yes") in
  let w' := run w (warranty_flow 9 " ab-12 cd " " fan is loud " "no") in
  exists ticket_id stamp0 stamp1 stamp2,
    fst (next_ticket_id w) = inr ticket_id /\
    tickets w' =
      PyDict.set ticket_id
        {| created_at := stamp0;
           serial := Some (PyStr.remove_whitespace (str_upper (config w) " ab-12 cd "));
           issue := Some (PyStr.strip " fan is loud ");
           remote_ok := String.eqb "no" "yes";
           status := if String.eqb "no" "yes" then "remote_scheduled" else "tl_wait";
           history := [ {| ts := stamp1; event := "created" |};
                        {| ts := stamp2; event := "remote_consent:" +:+ "no" |} ] |}
        (tickets w) /\
    orders w' = orders w /\
    state (session_of 9 w') =
      Some (Warranty (if String.eqb "no" "yes" then schedule_remote else tl_wait)).
Proof.
  cbv zeta.
  apply (warranty_flow_ticket 9 " ab-12 cd " " fan is loud " "no").
  - vm_compute. reflexivity.
  - vm_compute. reflexivity.
  - cbn. tauto.
Defined.

(** ** Identifiers and stored records along a run *)

Lemma append_cancel_l p s t : p +:+ s = p +:+ t -> s = t.
Proof. induction p as [|c p IH]; simpl; [auto | intros [= H]; auto]. Qed.

Lemma numbered_inj {R} prefix (db : pydict R) i j k :
  numbered prefix db ->
  nth_error (PyDict.keys db) i = Some k ->
  nth_error (PyDict.keys db) j = Some k -> i = j.
Proof.
  intros Hn Hi Hj.
  destruct (Hn _ _ Hi) as (d1 & H1 & E1). destruct (Hn _ _ Hj) as (d2 & H2 & E2).
  rewrite E1 in E2. apply append_cancel_l in E2.
  apply digits_then_dash_inj in E2; auto.
  apply PyStrFacts.format_0d_inj in E2. lia.
Qed.

Lemma numbered_wf {R} prefix (db : pydict R) : numbered prefix db -> PyDict.wf db.
Proof.
  intros Hn. unfold PyDict.wf. apply NoDup_nth_error. intros i j Hlt E.
  destruct (nth_error (PyDict.keys db) i) as [k|] eqn:Hi.
  - eapply numbered_inj; eauto.
  - apply nth_error_None in Hi. lia.
Qed.

Lemma numbered_fresh {R} prefix (db : pydict R) date :
  numbered prefix db -> PyStr.all_digits date = true ->
  ~ In (prefix +:+ date +:+ "-" +:+ PyStr.format_0d 4 (length db + 1)) (PyDict.keys db).
Proof.
  intros Hn Hd Hin. apply In_nth_error in Hin as [i Hi].
  assert (Hlt : i < length (PyDict.keys db)) by (apply nth_error_Some; congruence).
  unfold PyDict.keys in Hlt. rewrite length_map in Hlt.
  destruct (Hn _ _ Hi) as (d1 & H1 & E1).
  apply append_cancel_l in E1. apply digits_then_dash_inj in E1; auto.
  apply PyStrFacts.format_0d_inj in E1. lia.
Qed.

Lemma numbered_new {R} prefix (db : pydict R) date r :
  numbered prefix db -> PyStr.all_digits date = true ->
  numbered prefix
    (PyDict.set (prefix +:+ date +:+ "-" +:+ PyStr.format_0d 4 (length db + 1)) r db).
Proof.
  intros Hn Hd. pose proof (numbered_fresh prefix db date Hn Hd) as Hfresh.
  rewrite PyDictFacts.set_absent by assumption.
  unfold numbered, PyDict.keys. rewrite map_app. cbn [map fst]. fold (PyDict.keys db).
  intros i k Hi.
  destruct (Nat.lt_ge_cases i (length (PyDict.keys db))) as [Hlt|Hge].
  - rewrite nth_error_app1 in Hi by assumption. eauto.
  - rewrite nth_error_app2 in Hi by assumption.
    destruct (i - length (PyDict.keys db)) as [|n] eqn:E; cbn in Hi;
      [|destruct n; discriminate].
    injection Hi as <-. exists date. split; [assumption|].
    unfold PyDict.keys in E, Hge. rewrite length_map in E, Hge.
    replace i with (length db) by lia. reflexivity.
Qed.

Lemma preserved_new {R} (db : pydict R) k r :
  ~ In k (PyDict.keys db) -> preserved db (PyDict.set k r db).
Proof.
  intros Hk k' r' H'. destruct (String.eqb_spec k k') as [->|Hne].
  - exfalso. apply Hk. eapply PyDictFacts.get_Some_keys; eauto.
  - now rewrite PyDictFacts.get_set_ne.
Qed.

Lemma strftime_digits d : PyStr.all_digits (DateTime.strftime_Ymd d) = true.
Proof.
  unfold DateTime.strftime_Ymd.
  now rewrite !PyStrFacts.all_digits_app, !PyStrFacts.all_digits_format.
Qed.

Lemma keeps_orders_frame w r :
  orders_json (files (snd r)) = orders_json (files w) -> keeps_orders w r.
Proof.
  intros H Hn. rewrite (orders_same_file _ _ H). split; [assumption | now intros k o].
Qed.

Lemma buy_delivery_orders chat cb_data w :
  exists record,
    orders (snd (buy_delivery chat cb_data w)) =
    PyDict.set
      ("O" +:+ DateTime.strftime_Ymd (utc_clock (config w) (ticks w)) +:+ "-" +:+
       PyStr.format_0d 4 (length (orders w) + 1))
      record (orders w).
Proof.
  eexists. unfold buy_delivery, next_order_id. exec. fold (orders w).
  destruct (String.eqb (ADMIN_CHAT_ID (config w)) EmptyString); reflexivity.
Qed.

Lemma buy_delivery_keeps_orders chat cb_data w :
  keeps_orders w (buy_delivery chat cb_data w).
Proof.
  intros Hn. destruct (buy_delivery_orders chat cb_data w) as [record ->]. split.
  - apply numbered_new; [assumption | apply strftime_digits].
  - apply preserved_new, numbered_fresh; [assumption | apply strftime_digits].
Qed.

Lemma w_schedule_remote_orders chat msg_text w :
  orders_json (files (snd (w_schedule_remote chat msg_text w))) = orders_json (files w).
Proof.
  unfold w_schedule_remote. exec. fold (tickets w).
  match goal with
  | |- context [find_ticket ?d ?items ?w1] =>
      pose proof (find_ticket_pure d items w1) as Hpure;
      destruct (find_ticket d items w1) as [[e|tid] w2]
  end; cbn [snd] in Hpure; subst w2; [reflexivity|].
  destruct (truthy tid); [|reflexivity].
  destruct (PyDict.get (default EmptyString tid) (tickets w)); reflexivity.
Qed.

Ltac frame_orders h := apply keeps_orders_frame; unfold h; exec; reflexivity.

Lemma handlers_keep_orders f h chat payload w :
  In (f, h) message_handlers \/ In (f, h) callback_handlers ->
  keeps_orders w (h chat payload w).
Proof.
  intros [Hin|Hin]; each_handler Hin.
  - frame_orders cmd_start.
  - frame_orders buy_name.
  - apply keeps_orders_frame. unfold buy_email. destruct (negb _); exec; reflexivity.
  - frame_orders buy_phone.
  - frame_orders buy_city.
  - frame_orders buy_address.
  - frame_orders w_serial.
  - frame_orders w_issue.
  - apply keeps_orders_frame, w_schedule_remote_orders.
  - apply keeps_orders_frame. unfold admin_orders. exec. destruct (negb _); [reflexivity|].
    exec. destruct (_load ORDERS_DB (files w)); reflexivity.
  - apply keeps_orders_frame. unfold admin_tickets. exec. destruct (negb _); [reflexivity|].
    exec. destruct (_load TICKETS_DB (files w)); reflexivity.
  - frame_orders cb_home.
  - frame_orders cb_presentation.
  - frame_orders cb_contacts.
  - frame_orders cb_buy.
  - apply buy_delivery_keeps_orders.
  - frame_orders cb_warranty.
  - apply keeps_orders_frame, w_remote_session.
  - apply keeps_orders_frame, w_progress_frame.
Qed.

Lemma step_keeps_orders w u : keeps_orders w (dispatch u w).
Proof.
  destruct u as [chat msg_text|chat cb_data]; unfold dispatch; apply route_ind.
  - apply keeps_orders_frame. reflexivity.
  - intros f h Hin _. apply (handlers_keep_orders f). now left.
  - apply keeps_orders_frame. reflexivity.
  - intros f h Hin _. apply (handlers_keep_orders f). now right.
Qed.

Lemma run_keeps_orders w us :
  numbered "O" (orders w) ->
  numbered "O" (orders (run w us)) /\ preserved (orders w) (orders (run w us)).
Proof.
  revert w. induction us as [|u us IH]; intros w Hn.
  - split; [assumption | now intros k o].
  - cbn [run fold_left]. fold (run (step w u) us).
    destruct (step_keeps_orders w u Hn) as [Hn1 Hp1]. fold (step w u) in Hn1, Hp1.
    destruct (IH _ Hn1) as [Hn2 Hp2]. split; [assumption|].
    intros k o H. auto.
Qed.

(** X3.  Orders are never changed or lost, and no order id is used twice:
    along every run from a fresh start, the stored orders have pairwise
    different keys, the key at position i is O, digits, a dash and i+1, and
    every order found at some point of the run is found unchanged at every
    later point. *)
Theorem orders_immutable (e : env) (before after : list update) :
  let w := run (boot e) before in
  let w' := run w after in
  PyDict.wf (orders w') /\
  numbered "O" (orders w') /\
  preserved (orders w) (orders w') /\
  length (orders w) <= length (orders w').
Proof.
  cbv zeta.
  assert (H0 : numbered "O" (orders (boot e))) by (intros [|i] k H; discriminate).
  destruct (run_keeps_orders _ before H0) as [H1 _].
  destruct (run_keeps_orders _ after H1) as [H2 Hp].
  split; [eapply numbered_wf; eassumption|]. split; [assumption|]. split; [assumption|].
  pose proof (numbered_wf _ _ H1) as Hwf.
  unfold PyDict.wf in Hwf.
  rewrite <- (length_map fst (orders (run (boot e) before))).
  rewrite <- (length_map fst (orders (run (run (boot e) before) after))).
  apply NoDup_incl_length; [exact Hwf|].
  intros k Hk. apply in_map_iff in Hk as ([k' o] & <- & Hin). cbn [fst].
  apply (PyDictFacts.In_get _ _ _ Hwf) in Hin.
  eapply PyDictFacts.get_Some_keys. apply Hp. exact Hin.
Qed.

(** X4.  Ticket ids are never used twice: along every run from a fresh
    start the stored tickets have pairwise different keys, and the key at
    position i is T, digits, a dash and i+1, so a new ticket never takes
    the place of an old one and the number of tickets never falls. *)
Theorem ticket_ids_unique (e : env) (before after : list update) :
  let w := run (boot e) before in
  let w' := run w after in
  PyDict.wf (tickets w') /\
  numbered "T" (tickets w') /\
  length (tickets w) <= length (tickets w').
Proof.
  cbv zeta.
  destruct (run_keeps (boot e) before (boot_ok e)) as [Hok _].
  destruct (run_keeps _ after Hok) as [Hok' Hg].
  assert (H1 : numbered "T" (tickets (run (boot e) before))) by exact (proj1 Hok).
  assert (H2 : numbered "T" (tickets (run (run (boot e) before) after)))
    by exact (proj1 Hok').
  split; [eapply numbered_wf; eassumption|]. split; [assumption|].
  pose proof (numbered_wf _ _ H1) as Hwf. unfold PyDict.wf in Hwf.
  rewrite <- (length_map fst (tickets (run (boot e) before))).
  rewrite <- (length_map fst (tickets (run (run (boot e) before) after))).
  apply NoDup_incl_length; [exact Hwf|].
  intros k Hk. apply in_map_iff in Hk as ([k' t] & <- & Hin). cbn [fst].
  apply (PyDictFacts.In_get _ _ _ Hwf) in Hin.
  destruct (Hg _ _ Hin) as (t' & more & G & _).
  eapply PyDictFacts.get_Some_keys. exact G.
Qed.

(** ** Sessions of other chats *)

Ltac other_chat h :=
  unfold h; exec; repeat (rewrite lookup_insert_ne by assumption); reflexivity.

Lemma handlers_leave_others f h chat payload w (c : Z) :
  chat <> c ->
  In (f, h) message_handlers \/ In (f, h) callback_handlers ->
  storage (snd (h chat payload w)) !! c = storage w !! c.
Proof.
  intros Hc [Hin|Hin]; each_handler Hin.
  - other_chat cmd_start.
  - other_chat buy_name.
  - unfold buy_email. destruct (negb _); exec;
      repeat (rewrite lookup_insert_ne by assumption); reflexivity.
  - other_chat buy_phone.
  - other_chat buy_city.
  - other_chat buy_address.
  - other_chat w_serial.
  - other_chat w_issue.
  - unfold w_schedule_remote. exec.
    match goal with
    | |- context [find_ticket ?d ?items ?w1] =>
        pose proof (find_ticket_pure d items w1) as Hpure;
        destruct (find_ticket d items w1) as [[e|tid] w2]
    end; cbn [snd] in Hpure; subst w2; cbn [snd storage];
      [now rewrite lookup_insert_ne|].
    destruct (truthy tid);
      [destruct (PyDict.get (default EmptyString tid) _)|]; exec;
      repeat (rewrite lookup_insert_ne by assumption); reflexivity.
  - unfold admin_orders. exec. destruct (negb _); [reflexivity|].
    exec. destruct (_load ORDERS_DB (files w)); reflexivity.
  - unfold admin_tickets. exec. destruct (negb _); [reflexivity|].
    exec. destruct (_load TICKETS_DB (files w)); reflexivity.
  - other_chat cb_home.
  - other_chat cb_presentation.
  - other_chat cb_contacts.
  - other_chat cb_buy.
  - unfold buy_delivery, next_order_id. exec.
    destruct (String.eqb (ADMIN_CHAT_ID (config w)) EmptyString); exec;
      repeat (rewrite lookup_insert_ne by assumption); reflexivity.
  - other_chat cb_warranty.
  - unfold w_remote, next_ticket_id. exec.
    destruct (String.eqb (ADMIN_CHAT_ID (config w)) EmptyString); exec;
      destruct (String.eqb payload "yes"); exec;
      repeat (rewrite lookup_insert_ne by assumption); reflexivity.
  - destruct (w_progress_frame chat payload w) as [-> _]. reflexivity.
Qed.

(** X5.  Conversations do not leak into each other: an update from one chat
    leaves the session (state and collected answers) of every other chat
    exactly as it was, whatever handler runs and whether or not it raises. *)
Theorem other_sessions_untouched (w : world) (u : update) (c : Z) :
  c <> chat_of u -> session_of c (step w u) = session_of c w.
Proof.
  intros Hc. unfold session_of, step. f_equal.
  destruct u as [chat msg_text|chat cb_data]; cbn [chat_of] in Hc;
    unfold dispatch; apply route_ind; try reflexivity;
    intros f h Hin _; apply (handlers_leave_others f); auto.
Qed.

Lemma other_sessions_untouched_witness :
  let w := run (boot Demo.env) (Demo.buy_questions) in
  session_of 7 (step w (Message 8 "hello")) = session_of 7 w /\
  session_of 7 (step w (CallbackQuery 8 "menu_warranty")) = session_of 7 w.
Proof.
  cbv zeta. split.
  - apply (other_sessions_untouched _ (Message 8 "hello") 7). discriminate.
  - apply (other_sessions_untouched _ (CallbackQuery 8 "menu_warranty") 7). discriminate.
Defined.

(** ** What is sent *)

Ltac sent :=
  first
    [ exists []; split; [symmetry; apply List.app_nil_r | constructor]
    | rewrite <- ?List.app_assoc; eexists; split;
      [reflexivity | repeat constructor] ].

Ltac sends h := unfold sends_fit, h; exec; sent.

Lemma handlers_send_fit f h chat payload w :
  In (f, h) message_handlers \/ In (f, h) callback_handlers ->
  sends_fit chat w (h chat payload w).
Proof.
  intros [Hin|Hin]; each_handler Hin.
  - sends cmd_start.
  - sends buy_name.
  - unfold sends_fit, buy_email. destruct (negb _); exec; sent.
  - sends buy_phone.
  - sends buy_city.
  - sends buy_address.
  - sends w_serial.
  - sends w_issue.
  - unfold sends_fit, w_schedule_remote. exec.
    match goal with
    | |- context [find_ticket ?d ?items ?w1] =>
        pose proof (find_ticket_pure d items w1) as Hpure;
        destruct (find_ticket d items w1) as [[e|tid] w2]
    end; cbn [snd] in Hpure; subst w2; cbn [snd outbox]; [sent|].
    destruct (truthy tid);
      [destruct (PyDict.get (default EmptyString tid) _)|]; exec; sent.
  - unfold sends_fit, admin_orders. exec.
    destruct (is_admin (config w) chat) eqn:A; cbn [negb]; [|sent].
    exec. destruct (_load ORDERS_DB (files w)); exec; [sent|].
    eexists. split; [reflexivity|]. repeat constructor. exact A.
  - unfold sends_fit, admin_tickets. exec.
    destruct (is_admin (config w) chat) eqn:A; cbn [negb]; [|sent].
    exec. destruct (_load TICKETS_DB (files w)); exec; [sent|].
    eexists. split; [reflexivity|]. repeat constructor. exact A.
  - sends cb_home.
  - sends cb_presentation.
  - sends cb_contacts.
  - sends cb_buy.
  - unfold sends_fit, buy_delivery, next_order_id. exec.
    destruct (String.eqb (ADMIN_CHAT_ID (config w)) EmptyString); exec; sent.
  - sends cb_warranty.
  - unfold sends_fit, w_remote, next_ticket_id. exec.
    destruct (String.eqb (ADMIN_CHAT_ID (config w)) EmptyString); exec;
      destruct (String.eqb payload "yes"); exec; sent.
  - unfold sends_fit, w_progress.
    destruct (PyStr.partition ":" payload) as [[action sep] tid]. exec.
    destruct (PyDict.get tid _); [|sent].
    destruct (PyDict.get action mapping) as [[body st]|]; exec; sent.
Qed.

(** X6.  Listings of orders and of tickets reach the operator only: handling
    an update only adds to what was sent, and a listing among the added
    outputs goes to the chat the update came from, which is then the
    operator's chat (ADMIN_CHAT_ID is set and equals the chat id). *)
Theorem listings_only_for_operator (w : world) (u : update) :
  exists new,
    outbox (step w u) = (outbox w ++ new)%list /\
    forall o, In o new ->
      match o with
      | OrdersList c _ | TicketsList c _ =>
          c = chat_of u /\
          ADMIN_CHAT_ID (config w) <> EmptyString /\
          str_of_Z c = ADMIN_CHAT_ID (config w)
      | _ => True
      end.
Proof.
  assert (H : sends_fit (chat_of u) w (dispatch u w)).
  { destruct u as [chat msg_text|chat cb_data]; cbn [chat_of]; unfold dispatch;
      apply route_ind;
      try (exists []; split; [symmetry; apply List.app_nil_r | constructor]);
      intros f h Hin _; apply (handlers_send_fit f); auto. }
  destruct H as (new & E & Hfit). exists new. split; [exact E|].
  intros o Ho. rewrite List.Forall_forall in Hfit. specialize (Hfit o Ho).
  destruct o; try exact I; destruct Hfit as [-> A]; unfold is_admin in A;
    apply andb_true_iff in A as [A1 A2];
    apply negb_true_iff, String.eqb_neq in A1; apply String.eqb_eq in A2; auto.
Qed.

Example operator_gets_listing :
  let w := run (boot Demo.env)
             (order_flow 7 "Ann Lee" "a@b.co" "+27 10 555 0123" "Cape Town"
                "1 Long Street, 8001" "del_express") in
  outbox (step w (Message 1001 "/orders")) = (outbox w ++ [OrdersList 1001 (orders w)])%list /\
  outbox (step w (Message 7 "/orders")) = outbox w.
Proof. cbv zeta. split; vm_compute; reflexivity. Qed.

(** ** Stage buttons *)

Lemma partition_colon action tid :
  lacks ":" action = true ->
  PyStr.partition ":" (action +:+ ":" +:+ tid) = (action, ":", tid).
Proof.
  induction action as [|c action IH]; intros H.
  - reflexivity.
  - cbn [lacks] in H. apply andb_true_iff in H as [Hc H].
    apply negb_true_iff in Hc.
    change ((String c action) +:+ ":" +:+ tid) with (String c (action +:+ ":" +:+ tid)).
    cbn [PyStr.partition PyStr.startswith]. rewrite Ascii.eqb_sym, Hc. cbn [andb].
    now rewrite (IH H).
Qed.

(** X7.  A stage button whose action part is none of the six names, pressed
    for a ticket that exists: the handler raises KeyError for that name and
    nothing has changed, neither on disk nor in the sessions, and nothing
    was sent. *)
Theorem unknown_stage_action (chat : Z) (action tid : string) (w : world) :
  lacks ":" action = true ->
  PyDict.get action mapping = None ->
  PyDict.mem tid (tickets w) = true ->
  w_progress chat (action +:+ ":" +:+ tid) w = (inl (KeyError action), w).
Proof.
  intros Hcolon Hmap Hmem. unfold w_progress. rewrite partition_colon by assumption.
  exec. fold (tickets w). unfold PyDict.mem in Hmem.
  destruct (PyDict.get tid (tickets w)); [|discriminate].
  now rewrite Hmap.
Qed.

Lemma unknown_stage_action_witness :
  let w := run (boot Demo.env) (Demo.warranty "no") in
  dispatch (CallbackQuery 7 "repaired:T20240307-0001") w = (inl (KeyError "repaired"), w).
Proof.
  cbv zeta.
  transitivity (w_progress 7 ("repaired" +:+ ":" +:+ "T20240307-0001")
                  (run (boot Demo.env) (Demo.warranty "no"))).
  - vm_compute. reflexivity.
  - apply unknown_stage_action; vm_compute; reflexivity.
Defined.

(** X8.  The stage keyboard and the stage handler agree: for every ticket
    id, also one that contains a colon, the keyboard built for it carries
    one button per stage action with the data <action>:<id> (and the menu
    button); the handler splits each of these back into the action and the
    very same id, finds the action in its table, and the router hands each
    of them to that handler in every state. *)
Theorem stage_keyboard_round_trip (tid : string) :
  map callback_data (concat (warranty_progress_kb tid)) =
    (map (fun a => action_name a +:+ ":" +:+ tid)
       [act_tl_wait; act_asc_redirect; act_asc_control; act_repair;
        act_handover; act_feedback] ++ ["menu_home"])%list /\
  forall a : stage_action,
    PyStr.partition ":" (action_name a +:+ ":" +:+ tid) = (action_name a, ":", tid) /\
    PyDict.mem (action_name a) mapping = true /\
    forall chat w,
      dispatch (CallbackQuery chat (action_name a +:+ ":" +:+ tid)) w =
      w_progress chat (action_name a +:+ ":" +:+ tid) w.
Proof.
  split; [reflexivity|]. intros a. split; [apply partition_action|].
  split; [destruct a; reflexivity|]. intros chat w. apply dispatch_stage_action.
Qed.

(** X9.  The back button of the delivery keyboard has no handler: the
    keyboard offers a button with the data buy_back, and pressing it
    changes nothing and sends nothing, in every state. *)
Theorem delivery_back_button_is_dead (chat : Z) (w : world) :
  In "buy_back" (map callback_data (concat delivery_kb)) /\
  dispatch (CallbackQuery chat "buy_back") w = (inr tt, w).
Proof.
  split; [cbn; tauto|].
  unfold dispatch, route. exec.
  unfold callback_handlers, both, in_state, data_is, data_startswith,
    data_startswith_any, data_in.
  cbn [find fst snd].
  change (String.eqb "buy_back" "menu_home") with false.
  change (String.eqb "buy_back" "menu_presentation") with false.
  change (String.eqb "buy_back" "menu_contacts") with false.
  change (String.eqb "buy_back" "menu_buy") with false.
  change (String.eqb "buy_back" "menu_warranty") with false.
  change (PyStr.startswith "del_" "buy_back") with false.
  change (existsb (String.eqb "buy_back") ["yes"; "no"]) with false.
  change (PyStr.startswith_any stage_prefixes "buy_back") with false.
  rewrite !andb_false_r. reflexivity.
Qed.

(** ** Notes to the operator *)


(** ** What can raise *)

Lemma mem_get {V} k (d : pydict V) : PyDict.mem k d = true -> exists v, PyDict.get k d = Some v.
Proof. unfold PyDict.mem. destruct (PyDict.get k d); [eauto | discriminate]. Qed.

Lemma mem_set {V} k k' (v : V) d :
  PyDict.mem k (PyDict.set k' v d) = String.eqb k k' || PyDict.mem k d.
Proof.
  unfold PyDict.mem. induction d as [|[k1 v1] d IH]; cbn [PyDict.set PyDict.get].
  - destruct (String.eqb k k'); reflexivity.
  - destruct (String.eqb_spec k' k1) as [->|Hne]; cbn [PyDict.get].
    + destruct (String.eqb k k1); reflexivity.
    + destruct (String.eqb k k1); [now rewrite orb_true_r | exact IH].
Qed.

Lemma mem_set_same {V} k (v : V) d : PyDict.mem k (PyDict.set k v d) = true.
Proof. now rewrite mem_set, String.eqb_refl. Qed.

Lemma mem_set_other {V} k k' (v : V) d :
  k <> k' -> PyDict.mem k' (PyDict.set k v d) = PyDict.mem k' d.
Proof.
  intros H. rewrite mem_set. destruct (String.eqb_spec k' k); [congruence | reflexivity].
Qed.

Lemma mem_update {V} k (d1 d2 : pydict V) :
  PyDict.mem k (PyDict.update d1 d2) = PyDict.mem k d1 || PyDict.mem k d2.
Proof.
  unfold PyDict.update. revert d1.
  induction d2 as [|[k' v'] d2 IH]; intros d1; cbn [fold_left fst snd].
  - now rewrite orb_false_r.
  - rewrite IH, mem_set. unfold PyDict.mem at 4. cbn [PyDict.get].
    destruct (String.eqb k k'); cbn [orb]; [now rewrite orb_true_r | reflexivity].
Qed.

Lemma mem_map {A B} (g : A -> B) k (d : pydict A) :
  PyDict.mem k (map (fun kv => (fst kv, g (snd kv))) d) = PyDict.mem k d.
Proof.
  unfold PyDict.mem. induction d as [|[k' v'] d IH]; [reflexivity|].
  cbn [map fst snd PyDict.get]. destruct (String.eqb k k'); [reflexivity | exact IH].
Qed.

Lemma order_record_listable stamp d :
  PyDict.mem "email" d = true -> order_listable (order_record stamp d) = true.
Proof.
  intros H. unfold order_listable, order_record.
  rewrite !mem_update, !mem_map, H, orb_true_r. reflexivity.
Qed.

Lemma ready_same chat w w' :
  storage w' = storage w -> ready (session_of chat w) = true ->
  ready (session_of chat w') = true.
Proof. unfold session_of. now intros ->. Qed.

Ltac same_session h := eapply ready_same; [unfold h; exec; reflexivity | assumption].

Ltac new_session h :=
  unfold h; exec; rewrite !session_of_insert; reflexivity.

(** a handler that stores one more answer of the buy flow keeps the e-mail *)
Ltac keeps_email h st Hf Hr :=
  apply in_state_true in Hf; unfold ready in Hr; rewrite Hf in Hr;
  unfold h; exec; rewrite !session_of_insert;
  unfold ready; cbn [state data];
  rewrite mem_set_other by discriminate; exact Hr.

Lemma handlers_ready f h chat payload w :
  In (f, h) message_handlers \/ In (f, h) callback_handlers ->
  f (config w) (state (session_of chat w)) payload = true ->
  ready (session_of chat w) = true ->
  ready (session_of chat (snd (h chat payload w))) = true.
Proof.
  intros [Hin|Hin] Hf Hr; each_handler Hin.
  - same_session cmd_start.
  - new_session buy_name.
  - unfold buy_email. destruct (negb _).
    + eapply ready_same; [exec; reflexivity | assumption].
    + exec. rewrite !session_of_insert.
      unfold ready. cbn [state data]. apply mem_set_same.
  - keeps_email buy_phone (Buy taking_phone) Hf Hr.
  - keeps_email buy_city (Buy taking_city) Hf Hr.
  - keeps_email buy_address (Buy taking_address) Hf Hr.
  - unfold w_serial. exec. rewrite !session_of_insert.
    unfold ready. cbn [state data]. apply mem_set_same.
  - apply in_state_true in Hf. unfold ready in Hr. rewrite Hf in Hr.
    unfold w_issue. exec. rewrite !session_of_insert.
    unfold ready. cbn [state data].
    rewrite mem_set_other by discriminate. rewrite Hr. apply mem_set_same.
  - apply in_state_true in Hf. unfold ready in Hr. rewrite Hf in Hr.
    unfold w_schedule_remote. exec. rewrite !session_of_insert. cbn [state data].
    match goal with
    | |- context [find_ticket ?d ?items ?w1] =>
        pose proof (find_ticket_pure d items w1) as Hpure;
        destruct (find_ticket d items w1) as [[e|tid] w2]
    end; cbn [snd] in Hpure; subst w2; cbn [snd].
    + rewrite session_of_insert. unfold ready. cbn [state data]. rewrite Hf.
      now rewrite !mem_set_other by discriminate.
    + destruct (truthy tid);
        [destruct (PyDict.get (default EmptyString tid) _)|]; exec;
        rewrite ?session_of_insert; try reflexivity.
      unfold ready. cbn [state data]. rewrite Hf.
      now rewrite !mem_set_other by discriminate.
  - eapply ready_same; [|eassumption].
    unfold admin_orders. exec. destruct (negb _); [reflexivity|].
    exec. destruct (_load ORDERS_DB (files w)); reflexivity.
  - eapply ready_same; [|eassumption].
    unfold admin_tickets. exec. destruct (negb _); [reflexivity|].
    exec. destruct (_load TICKETS_DB (files w)); reflexivity.
  - same_session cb_home.
  - same_session cb_presentation.
  - same_session cb_contacts.
  - new_session cb_buy.
  - unfold buy_delivery, next_order_id. exec.
    destruct (String.eqb (ADMIN_CHAT_ID (config w)) EmptyString); exec;
      rewrite !session_of_insert; reflexivity.
  - new_session cb_warranty.
  - unfold both in Hf. apply andb_prop in Hf as [Hf _].
    apply in_state_true in Hf. unfold ready in Hr. rewrite Hf in Hr.
    unfold w_remote, next_ticket_id. exec.
    destruct (String.eqb (ADMIN_CHAT_ID (config w)) EmptyString); exec;
      destruct (String.eqb payload "yes"); exec;
      rewrite !session_of_insert; unfold ready; cbn [state data];
      try reflexivity; exact Hr.
  - eapply ready_same; [|eassumption].
    now destruct (w_progress_frame chat payload w) as [-> _].
Qed.

Lemma listable_frame w w' : files w' = files w -> listable w -> listable w'.
Proof. unfold listable, orders, tickets. now intros ->. Qed.

Lemma listable_new_order w w' k r :
  orders w' = PyDict.set k r (orders w) ->
  tickets_json (files w') = tickets_json (files w) ->
  order_listable r = true ->
  listable w -> listable w'.
Proof.
  intros Ho Ht Hr [Lo Lt]. split.
  - rewrite Ho. intros k' r' Hin. apply In_set in Hin as [[= -> ->]|Hin]; eauto.
  - now rewrite (tickets_same_file _ _ Ht).
Qed.

Lemma listable_new_ticket w w' k t :
  tickets w' = PyDict.set k t (tickets w) ->
  orders_json (files w') = orders_json (files w) ->
  ticket_listable t = true ->
  listable w -> listable w'.
Proof.
  intros Ht Ho Hr [Lo Lt]. split.
  - now rewrite (orders_same_file _ _ Ho).
  - rewrite Ht. intros k' t' Hin. apply In_set in Hin as [[= -> ->]|Hin]; eauto.
Qed.

Lemma buy_delivery_record chat cb_data w :
  exists order_id stamp,
    orders (snd (buy_delivery chat cb_data w)) =
    PyDict.set order_id
      (order_record stamp
         (PyDict.set "delivery" (delivery_choice cb_data) (data (session_of chat w))))
      (orders w).
Proof.
  do 2 eexists. unfold buy_delivery, next_order_id. exec.
  rewrite !session_of_insert. cbn [data]. fold (orders w).
  destruct (String.eqb (ADMIN_CHAT_ID (config w)) EmptyString); reflexivity.
Qed.

Lemma w_remote_orders chat cb_data w :
  orders_json (files (snd (w_remote chat cb_data w))) = orders_json (files w).
Proof.
  unfold w_remote, next_ticket_id. exec.
  destruct (String.eqb (ADMIN_CHAT_ID (config w)) EmptyString); exec;
    destruct (String.eqb cb_data "yes"); reflexivity.
Qed.

Ltac unchanged h := eapply listable_frame; [unfold h; exec; reflexivity | assumption].

Lemma handlers_listable f h chat payload w :
  In (f, h) message_handlers \/ In (f, h) callback_handlers ->
  f (config w) (state (session_of chat w)) payload = true ->
  ready (session_of chat w) = true ->
  listable w -> listable (snd (h chat payload w)).
Proof.
  intros [Hin|Hin] Hf Hr Hl; each_handler Hin.
  - unchanged cmd_start.
  - unchanged buy_name.
  - eapply listable_frame; [|eassumption].
    unfold buy_email. destruct (negb _); exec; reflexivity.
  - unchanged buy_phone.
  - unchanged buy_city.
  - unchanged buy_address.
  - unchanged w_serial.
  - unchanged w_issue.
  - unfold w_schedule_remote. exec. fold (tickets w).
    match goal with
    | |- context [find_ticket ?d ?items ?w1] =>
        pose proof (find_ticket_pure d items w1) as Hpure;
        destruct (find_ticket d items w1) as [[e|tid] w2]
    end; cbn [snd] in Hpure; subst w2.
    + eapply listable_frame; [reflexivity | assumption].
    + destruct (truthy tid).
      * destruct (PyDict.get (default EmptyString tid) (tickets w)) as [t|] eqn:E.
        -- exec. cbn [snd].
           eapply (listable_new_ticket w); [| | |exact Hl].
           ++ unfold tickets at 1.
              cbn [files _load _save read_file write_file TICKETS_DB tickets_json].
              reflexivity.
           ++ reflexivity.
           ++ apply PyDictFacts.get_Some_In in E. exact (proj2 Hl _ _ E).
        -- exec. eapply listable_frame; [reflexivity | assumption].
      * exec. eapply listable_frame; [reflexivity | assumption].
  - eapply listable_frame; [|eassumption].
    unfold admin_orders. exec. destruct (negb _); [reflexivity|].
    exec. destruct (_load ORDERS_DB (files w)); reflexivity.
  - eapply listable_frame; [|eassumption].
    unfold admin_tickets. exec. destruct (negb _); [reflexivity|].
    exec. destruct (_load TICKETS_DB (files w)); reflexivity.
  - unchanged cb_home.
  - unchanged cb_presentation.
  - unchanged cb_contacts.
  - unchanged cb_buy.
  - unfold both in Hf. apply andb_prop in Hf as [Hf _].
    apply in_state_true in Hf. unfold ready in Hr. rewrite Hf in Hr.
    destruct (buy_delivery_record chat payload w) as (oid & stamp & Ho).
    eapply listable_new_order; [exact Ho | apply buy_delivery_frame | | exact Hl].
    apply order_record_listable. now rewrite mem_set_other by discriminate.
  - unchanged cb_warranty.
  - unfold both in Hf. apply andb_prop in Hf as [Hf _].
    apply in_state_true in Hf. unfold ready in Hr. rewrite Hf in Hr.
    apply andb_prop in Hr as [_ Hi]. apply mem_get in Hi as [i Hi].
    destruct (w_remote_tickets chat payload w) as (s0 & s1 & s2 & Ht).
    eapply listable_new_ticket; [exact Ht | apply w_remote_orders | | exact Hl].
    unfold ticket_listable. cbn [issue]. now rewrite Hi.
  - unfold w_progress. destruct (PyStr.partition ":" payload) as [[action sep] tid].
    exec. fold (tickets w).
    destruct (PyDict.get tid (tickets w)) as [t|] eqn:E;
      [|eapply listable_frame; [reflexivity | assumption]].
    destruct (PyDict.get action mapping) as [[body st]|];
      [|eapply listable_frame; [reflexivity | assumption]].
    exec. cbn [snd].
    eapply (listable_new_ticket w); [| | |exact Hl].
    + unfold tickets at 1.
      cbn [files _load _save read_file write_file TICKETS_DB tickets_json].
      reflexivity.
    + reflexivity.
    + apply PyDictFacts.get_Some_In in E. exact (proj2 Hl _ _ E).
Qed.

Lemma step_sound w u : sound w -> sound (step w u).
Proof.
  intros [Hr Hl]. unfold step. split.
  - intros c. destruct (decide (chat_of u = c)) as [<-|Hc].
    + destruct u as [chat msg_text|chat cb_data]; cbn [chat_of];
        unfold dispatch; apply route_ind; try apply Hr;
        intros f h Hin Hf; apply (handlers_ready f); auto.
    + unfold session_of.
      replace (storage (snd (dispatch u w)) !! c) with (storage w !! c); [apply Hr|].
      symmetry.
      destruct u as [chat msg_text|chat cb_data]; cbn [chat_of] in Hc;
        unfold dispatch; apply route_ind; try reflexivity;
        intros f h Hin _; apply (handlers_leave_others f); auto.
  - destruct u as [chat msg_text|chat cb_data];
      unfold dispatch; apply route_ind; try exact Hl;
      intros f h Hin Hf; apply (handlers_listable f); auto.
Qed.

Lemma run_sound e us : sound (run (boot e) us).
Proof.
  induction us as [|u us IH] using rev_ind.
  - split; [reflexivity | split; intros k r []].
  - rewrite run_snoc. now apply step_sound.
Qed.

Ltac finishes h := unfold h; exec; reflexivity.

Lemma messages_finish f h chat payload w :
  In (f, h) message_handlers ->
  f (config w) (state (session_of chat w)) payload = true ->
  ready (session_of chat w) = true ->
  fst (h chat payload w) = inr tt.
Proof.
  intros Hin Hf Hr; each_handler Hin.
  - finishes cmd_start.
  - finishes buy_name.
  - unfold buy_email. destruct (negb _); exec; reflexivity.
  - finishes buy_phone.
  - finishes buy_city.
  - finishes buy_address.
  - finishes w_serial.
  - finishes w_issue.
  - apply in_state_true in Hf. unfold ready in Hr. rewrite Hf in Hr.
    apply andb_prop in Hr as [Hs Hi].
    apply mem_get in Hs as [s Hs]. apply mem_get in Hi as [i Hi].
    unfold w_schedule_remote. exec.
    destruct (schedule_keeps_keys (data (session_of chat w)) (PyStr.strip payload))
      as [Ks Ki].
    rewrite !session_of_insert. cbn [data state].
    rewrite (find_ticket_found _ s i) by congruence.
    fold (tickets w).
    destruct (find (same_device s i) (PySort.sorted by_created_at true (tickets w)))
      as [[k t]|] eqn:F; cbn [option_map fst truthy default from_option id];
      [|exec; reflexivity].
    apply find_some in F as [Hin _]. apply PySortFacts.In_sorted in Hin.
    destruct (negb (String.eqb k EmptyString)); [|exec; reflexivity].
    destruct (PyDict.get k (tickets w)) as [t'|] eqn:G; [exec; reflexivity|].
    exfalso. apply PyDictFacts.get_None_keys in G. apply G.
    change k with (fst (k, t)). now apply in_map.
  - unfold admin_orders. exec. destruct (negb _); [reflexivity|].
    exec. destruct (_load ORDERS_DB (files w)); reflexivity.
  - unfold admin_tickets. exec. destruct (negb _); [reflexivity|].
    exec. destruct (_load TICKETS_DB (files w)); reflexivity.
Qed.

Lemma callbacks_finish f h chat payload w :
  In (f, h) callback_handlers ->
  f (config w) (state (session_of chat w)) payload = true ->
  fst (h chat payload w) = inr tt \/
  PyStr.startswith_any stage_prefixes payload = true /\
  PyDict.get (fst (fst (PyStr.partition ":" payload))) mapping = None /\
  PyDict.mem (snd (PyStr.partition ":" payload)) (tickets w) = true /\
  fst (h chat payload w) = inl (KeyError (fst (fst (PyStr.partition ":" payload)))).
Proof.
  intros Hin Hf; each_handler Hin.
  - left. finishes cb_home.
  - left. finishes cb_presentation.
  - left. finishes cb_contacts.
  - left. finishes cb_buy.
  - left. unfold buy_delivery, next_order_id. exec.
    destruct (String.eqb (ADMIN_CHAT_ID (config w)) EmptyString); reflexivity.
  - left. finishes cb_warranty.
  - left. unfold w_remote, next_ticket_id. exec.
    destruct (String.eqb (ADMIN_CHAT_ID (config w)) EmptyString); exec;
      destruct (String.eqb payload "yes"); reflexivity.
  - unfold w_progress, PyDict.mem.
    destruct (PyStr.partition ":" payload) as [[action sep] tid]. cbn [fst snd].
    exec. fold (tickets w).
    destruct (PyDict.get tid (tickets w)) as [t|]; [|left; reflexivity].
    destruct (PyDict.get action mapping) as [[body st]|]; [left; reflexivity|].
    right. auto.
Qed.

(** X11.  What can go wrong.  In every world the bot reaches from a fresh
    start, whatever updates came before, handling a text message or a
    pressed button finishes without raising, with one exception: a stage
    button (one whose data starts with one of the six stage names) for an
    existing ticket whose action part is not in the table of [w_progress];
    then [KeyError] of that action is raised.  In particular a text message
    never makes a handler raise: the session answers that
    [w_schedule_remote] reads with [data["serial"]] and [data["issue"]] are
    always there when it runs.  Failures of Telegram and of the file system
    are outside the model. *)
Theorem raises_only_on_unknown_stage (e : env) (us : list update) (u : update) :
  let w := run (boot e) us in
  fst (dispatch u w) = inr tt \/
  exists chat cb_data,
    u = CallbackQuery chat cb_data /\
    PyStr.startswith_any stage_prefixes cb_data = true /\
    PyDict.get (fst (fst (PyStr.partition ":" cb_data))) mapping = None /\
    PyDict.mem (snd (PyStr.partition ":" cb_data)) (tickets w) = true /\
    fst (dispatch u w) = inl (KeyError (fst (fst (PyStr.partition ":" cb_data)))).
Proof.
  cbv zeta. set (w := run (boot e) us).
  destruct u as [chat msg_text|chat cb_data]; unfold dispatch.
  - left. apply route_ind; [reflexivity|].
    intros f h Hin Hf. apply (messages_finish f); auto. apply run_sound.
  - apply route_ind; [now left|].
    intros f h Hin Hf.
    destruct (callbacks_finish f h chat cb_data w Hin Hf) as [H|H]; [now left|].
    right. exists chat, cb_data. tauto.
Qed.

(** X12.  The operator's listings find what they read.  In every world the
    bot reaches from a fresh start, every stored order has the fields
    [product], [price] and [email] that the listing of orders reads with
    [v[...]], and every stored ticket has a text as its issue, which the
    listing of tickets slices with [v["issue"][:40]]; and every session that
    waits for the delivery choice holds an e-mail address, every session
    that waits for the consent answer or the time slot holds serial and
    issue. *)
Theorem stores_stay_listable (e : env) (us : list update) :
  let w := run (boot e) us in
  (forall k r, In (k, r) (orders w) ->
     PyDict.mem "product" r && PyDict.mem "price" r && PyDict.mem "email" r = true) /\
  (forall k t, In (k, t) (tickets w) -> issue t <> None) /\
  (forall c, state (session_of c w) = Some (Buy taking_delivery) ->
     PyDict.mem "email" (data (session_of c w)) = true) /\
  (forall c, state (session_of c w) = Some (Warranty ask_remote) \/
             state (session_of c w) = Some (Warranty schedule_remote) ->
     PyDict.mem "serial" (data (session_of c w)) = true /\
     PyDict.mem "issue" (data (session_of c w)) = true).
Proof.
  cbv zeta. destruct (run_sound e us) as [Hr [Lo Lt]].
  split; [exact Lo|]. split; [|split].
  - intros k t Hin. specialize (Lt k t Hin). unfold ticket_listable in Lt.
    destruct (issue t); [discriminate | discriminate].
  - intros c Hs. specialize (Hr c). unfold ready in Hr. now rewrite Hs in Hr.
  - intros c Hs. specialize (Hr c). unfold ready in Hr.
    destruct Hs as [Hs|Hs]; rewrite Hs in Hr; now apply andb_prop in Hr.
Qed.

(** ** Amounts of money *)










